(** * Minimalist-Content-Creator: the retrying Gemini client

    A shallow embedding of [generate_content] from
    [src/Minimalist/Minimalist-Content-Creator.py], the only function of the
    repository with a contract: it reads the API key from the process
    environment, posts one fixed request up to [MAX_RETRIES] times, backs off
    exponentially on the status codes 429, 500 and 503, digs the answer out of
    the decoded JSON body and returns it, or [None].

    The function is effectful: it reads the environment, calls the network,
    sleeps and prints.  The embedding threads an explicit [World] through the
    code, which records every network call, sleep and printed line, and runs
    the statements that can raise in an exception monad, so that what escapes
    the function is visible in its result. *)

From Stdlib Require Import ZArith String List Bool Lia.
From Stdlib Require Import Floats.SpecFloat.
From stdpp Require Import base option list gmap strings.

Open Scope string_scope.
Open Scope list_scope.

(** ** Python values

    What [response.json()] can hand back: the image of a JSON document under
    Python's [json] module.  A JSON object becomes a [dict] with string keys,
    modelled as a finite map. *)

#[warnings="-register-all"]
Inductive PyVal : Type :=
| PNone
| PBool (b : bool)
| PInt (n : Z)
| PFloat (f : spec_float)
| PStr (s : string)
| PList (l : list PyVal)
| PDict (d : gmap string PyVal).

(** Python's truth value testing, as used by [if text:]. *)
Definition truthy (v : PyVal) : bool :=
  match v with
  | PNone => false
  | PBool b => b
  | PInt n => negb (n =? 0)%Z
  | PFloat (S754_zero _) => false
  | PFloat _ => true
  | PStr s => negb (String.eqb s "")
  | PList l => match l with [] => false | _ => true end
  | PDict d => negb (size d =? 0)%nat
  end.

(** ** Exceptions

    The exception classes that can arise inside the [try] block.  Since
    requests 2.27 [response.json()] raises
    [requests.exceptions.JSONDecodeError], which inherits both from
    [RequestException] and from [json.JSONDecodeError]; before, it raised the
    decoder's own [json.JSONDecodeError].  The source pins no version, so the
    response says which of the two it raises.  The decoder lets other
    exceptions through as they are: [ValueError] for an integer of more than
    4300 digits, [RecursionError] for a body nested too deep. *)

Inductive NetFailure : Type := ConnectionError | ReadTimeout | TooManyRedirects.

Inductive Exn : Type :=
| HTTPError (status : Z)
| RequestError (k : NetFailure)
| RequestsJSONDecodeError
| JSONDecodeError
| IndexError
| KeyError
| AttributeError
| TypeError
| UnboundLocalError
| ValueError
| RecursionError.

(** [isinstance(e, requests.exceptions.HTTPError)] *)
Definition is_HTTPError (e : Exn) : bool :=
  match e with HTTPError _ => true | _ => false end.

(** [isinstance(e, requests.exceptions.RequestException)] *)
Definition is_RequestException (e : Exn) : bool :=
  match e with
  | HTTPError _ | RequestError _ | RequestsJSONDecodeError => true
  | _ => false
  end.

(** [isinstance(e, (json.JSONDecodeError, IndexError, KeyError))] *)
Definition is_parse_error (e : Exn) : bool :=
  match e with
  | RequestsJSONDecodeError | JSONDecodeError | IndexError | KeyError => true
  | _ => false
  end.

(** The pure part of the [try] block runs in the exception monad. *)
Definition Exc (A : Type) : Type := Exn + A.

Definition ret {A} (a : A) : Exc A := inr a.
Definition raise {A} (e : Exn) : Exc A := inl e.
Definition bind {A B} (m : Exc A) (k : A -> Exc B) : Exc B :=
  match m with
  | inl e => inl e
  | inr a => k a
  end.

Notation "x <- m ;; k" := (bind m (fun x => k))
  (at level 100, m at next level, right associativity).

(** ** Dictionary and sequence access *)

(** [v.get(key, default)]: only a [dict] has the method. *)
Definition py_get (v : PyVal) (key : string) (default : PyVal) : Exc PyVal :=
  match v with
  | PDict d => ret (match d !! key with Some x => x | None => default end)
  | _ => raise AttributeError
  end.

(** [v[0]].  A list or a string gives its first element or [IndexError]; a
    dict decoded from JSON has string keys only, so the integer key [0] is
    never found; the other values are not subscriptable. *)
Definition py_item0 (v : PyVal) : Exc PyVal :=
  match v with
  | PList (x :: _) => ret x
  | PList [] => raise IndexError
  | PStr (String c _) => ret (PStr (String c EmptyString))
  | PStr EmptyString => raise IndexError
  | PDict _ => raise KeyError
  | _ => raise TypeError
  end.

(** Lines 62-63 of the source:
    [candidate = data.get("candidates", [{}])[0]] and
    [text = candidate.get("content", {}).get("parts", [{}])[0].get("text")]. *)
Definition extract_text (data : PyVal) : Exc PyVal :=
  candidates <- py_get data "candidates" (PList [PDict ∅]) ;;
  candidate <- py_item0 candidates ;;
  content <- py_get candidate "content" (PDict ∅) ;;
  parts <- py_get content "parts" (PList [PDict ∅]) ;;
  part <- py_item0 parts ;;
  py_get part "text" PNone.

(** ** The outside world *)

(** What [requests.post] is called with.  [data] is [json.dumps(payload)];
    the serialiser is the library's, so the payload is kept as the value it
    serialises. *)
Record Request : Type := {
  url : string;
  headers : gmap string string;
  data : PyVal
}.

(** What [response.json()] does with the body: the decoded value, or a decode
    error of the class the installed requests raises ([legacy]: before 2.27),
    or another exception, which it does not wrap. *)
Inductive Decoded : Type :=
| Json (v : PyVal)
| Undecodable (legacy : bool)
| JsonRaises (e : Exn).

(** The parts of a [requests.Response] the function looks at. *)
Record Response : Type := {
  status_code : Z;
  text : string;
  decoded : Decoded
}.

(** One call of [requests.post] either raises a network-level
    [RequestException] or returns a response, whatever its status. *)
Inductive Outcome : Type :=
| PostRaises (k : NetFailure)
| PostReturns (r : Response).

(** The lines the function prints. *)
Inductive Msg : Type :=
| MsgKeyNotSet          (* ERROR: GEMINI_API_KEY environment variable not set. *)
| MsgPleaseSetKey       (* Please set your API key to run this script. *)
| MsgRetrying (status delay : Z)   (* API Error (status). Retrying in delay s... *)
| MsgFatalHTTP (e : Exn)           (* FATAL HTTP Error: e *)
| MsgRequestError (e : Exn)        (* A request error occurred: e *)
| MsgParseFailed (e : Exn)         (* Failed to parse API response: e *)
| MsgRawResponse (body : string)   (* Raw Response: body *)
| MsgGaveUp.            (* Failed to generate content after multiple retries. *)

(** What an observer of the process sees, in order. *)
Inductive Event : Type :=
| EPost (req : Request)
| ESleep (seconds : Z)
| EPrint (m : Msg).

(** The state the function runs in.  [transport] is the remote end: the
    outcome of the [n]-th network call of the process for a given request;
    [net_calls] counts the calls made so far and [trace] records the events. *)
Record World : Type := {
  environ : gmap string string;
  transport : nat -> Request -> Outcome;
  net_calls : nat;
  trace : list Event
}.

Definition emit (ev : Event) (w : World) : World :=
  {| environ := environ w; transport := transport w;
     net_calls := net_calls w; trace := trace w ++ [ev] |}.

Definition print (m : Msg) : World -> World := emit (EPrint m).

Definition time_sleep (seconds : Z) : World -> World := emit (ESleep seconds).

Definition os_getenv (name : string) (w : World) : option string :=
  environ w !! name.

Definition requests_post (req : Request) (w : World) : Outcome * World :=
  (transport w (net_calls w) req,
   {| environ := environ w; transport := transport w;
      net_calls := S (net_calls w); trace := trace w ++ [EPost req] |}).

(** [response.raise_for_status()]: 4xx and 5xx raise. *)
Definition raise_for_status (r : Response) : Exc unit :=
  if (400 <=? status_code r)%Z && (status_code r <? 600)%Z
  then raise (HTTPError (status_code r))
  else ret tt.

(** [response.json()] *)
Definition response_json (r : Response) : Exc PyVal :=
  match decoded r with
  | Json v => ret v
  | Undecodable true => raise JSONDecodeError
  | Undecodable false => raise RequestsJSONDecodeError
  | JsonRaises e => raise e
  end.

(** ** Configuration (lines 9-17) *)

Definition MODEL_NAME : string := "gemini-2.5-flash-preview-09-2025".

Definition API_ENDPOINT : string :=
  "https://generativelanguage.googleapis.com/v1beta/models/"
    +:+ MODEL_NAME +:+ ":generateContent".

Definition SYSTEM_PROMPT : string :=
  "You are a bombastic, hyperbolic narrator from a 1950s Pulp Science Fiction B-movie. "
  +:+ "Use terms like 'blast off,' 'cosmic,' 'alien menace,' 'ray gun,' and 'space siren.' "
  +:+ "Your responses must be brief, thrilling, and over the top. Always use ALL CAPS for maximum impact.".

(** ** [generate_content] (lines 21-91) *)

(** How one pass through the loop body ends. *)
Inductive Ctl : Type :=
| Next                 (* fall off the body: the next iteration *)
| Break
| Return (v : PyVal)
| Raise (e : Exn).     (* no clause matches: the exception propagates *)

Section Policy.

(** The two constants of lines 50-51; the source fixes them to 5 and 1. *)
Variable MAX_RETRIES : nat.
Variable BASE_DELAY : Z.

Definition payload (user_query : string) : PyVal :=
  PDict {[
    "contents" := PList [PDict {[ "parts" := PList [PDict {[ "text" := PStr user_query ]}] ]}];
    "systemInstruction" := PDict {[ "parts" := PList [PDict {[ "text" := PStr SYSTEM_PROMPT ]}] ]};
    "tools" := PList [PDict {[ "google_search" := PDict ∅ ]}]
  ]}.

Definition request (api_key user_query : string) : Request :=
  {| url := API_ENDPOINT +:+ "?key=" +:+ api_key;
     headers := {[ "Content-Type" := "application/json" ]};
     data := payload user_query |}.

(** The statements of the [try] block after [requests.post] has returned
    (lines 59-66): [Return text] when [text] is truthy; otherwise control
    leaves the block at its end and the loop goes on. *)
Definition try_response (r : Response) : Exc Ctl :=
  _ <- raise_for_status r ;;
  data <- response_json r ;;
  text <- extract_text data ;;
  ret (if truthy text then Return text else Next).

(** The three [except] clauses (lines 68-88), tried in order.  [response] is
    the local variable of that name, unbound ([None]) until the first
    [requests.post] has returned. *)
Definition except (e : Exn) (attempt : nat) (response : option Response)
    (w : World) : Ctl * World :=
  if is_HTTPError e then
    match response with
    | None => (Raise UnboundLocalError, w)
    | Some r =>
        if bool_decide (status_code r ∈ [429; 500; 503]%Z)
           && (Z.of_nat attempt <? Z.of_nat MAX_RETRIES - 1)%Z
        then
          let delay := (BASE_DELAY * 2 ^ Z.of_nat attempt)%Z in
          (Next, time_sleep delay (print (MsgRetrying (status_code r) delay) w))
        else (Break, print (MsgFatalHTTP e) w)
    end
  else if is_RequestException e then
    (Break, print (MsgRequestError e) w)
  else if is_parse_error e then
    let w1 := print (MsgParseFailed e) w in
    match response with
    | Some r =>
        if negb (String.eqb (text r) "")
        then (Break, print (MsgRawResponse (text r)) w1)
        else (Break, w1)
    | None => (Break, w1)
    end
  else (Raise e, w).

(** One iteration of [for attempt in range(MAX_RETRIES)] (lines 54-88);
    it also returns the new binding of [response]. *)
Definition attempt_once (api_key user_query : string) (attempt : nat)
    (response : option Response) (w : World)
    : Ctl * option Response * World :=
  let '(o, w1) := requests_post (request api_key user_query) w in
  match o with
  | PostRaises k =>
      let '(c, w2) := except (RequestError k) attempt response w1 in
      (c, response, w2)
  | PostReturns r =>
      match try_response r with
      | inr c => (c, Some r, w1)
      | inl e =>
          let '(c, w2) := except e attempt (Some r) w1 in
          (c, Some r, w2)
      end
  end.

(** The loop: [remaining] iterations are left and the next one has index
    [attempt].  [Next] after the last iteration is the normal end of the
    loop. *)
Fixpoint for_range (api_key user_query : string) (remaining attempt : nat)
    (response : option Response) (w : World) : Ctl * World :=
  match remaining with
  | O => (Next, w)
  | S k =>
      let '(c, response', w') :=
        attempt_once api_key user_query attempt response w in
      match c with
      | Next => for_range api_key user_query k (S attempt) response' w'
      | _ => (c, w')
      end
  end.

Definition generate_content_with (user_query : string) (w : World)
    : Exc PyVal * World :=
  match os_getenv "GEMINI_API_KEY" w with
  | None => (ret PNone, print MsgPleaseSetKey (print MsgKeyNotSet w))
  | Some api_key =>
      if String.eqb api_key "" then
        (ret PNone, print MsgPleaseSetKey (print MsgKeyNotSet w))
      else
        match for_range api_key user_query MAX_RETRIES 0 None w with
        | (Return v, w') => (ret v, w')
        | (Raise e, w') => (raise e, w')
        | (_, w') => (ret PNone, print MsgGaveUp w')
        end
  end.

End Policy.

(** The function of the source: [MAX_RETRIES = 5], [BASE_DELAY = 1]. *)
Definition generate_content : string -> World -> Exc PyVal * World :=
  generate_content_with 5 1.

(** ** Observing a run *)

(** The events a run added to the trace: what [w'] has beyond [w]. *)
Definition events_since (w w' : World) : list Event :=
  drop (length (trace w)) (trace w').

Definition is_post (ev : Event) : bool :=
  match ev with EPost _ => true | _ => false end.

(** The network-call counter of a stretch of events. *)
Definition posts (evs : list Event) : nat :=
  length (List.filter is_post evs).

(** The delays slept, in order. *)
Fixpoint sleeps (evs : list Event) : list Z :=
  match evs with
  | [] => []
  | ESleep d :: evs => d :: sleeps evs
  | _ :: evs => sleeps evs
  end.

(** The lines printed, in order. *)
Fixpoint printed (evs : list Event) : list Msg :=
  match evs with
  | [] => []
  | EPrint m :: evs => m :: printed evs
  | _ :: evs => printed evs
  end.

(** The calls and sleeps alone, in order: [None] is a network call,
    [Some d] a sleep of [d] seconds. *)
Fixpoint schedule (evs : list Event) : list (option Z) :=
  match evs with
  | [] => []
  | EPost _ :: evs => None :: schedule evs
  | ESleep d :: evs => Some d :: schedule evs
  | EPrint _ :: evs => schedule evs
  end.

(** ** Sample worlds *)

Definition http (status : Z) (body : string) (d : Decoded) : Outcome :=
  PostReturns {| status_code := status; text := body; decoded := d |}.

(** A process with the key set to [key], talking to [t], that has done
    nothing yet. *)
Definition fresh_world (key : option string) (t : nat -> Outcome) : World :=
  {| environ := match key with
                | Some k => {[ "GEMINI_API_KEY" := k ]}
                | None => ∅
                end;
     transport := fun n _ => t n;
     net_calls := 0;
     trace := [] |}.

(** The answer of the API with [v] in the place of the generated text. *)
Definition answer (v : PyVal) : PyVal :=
  PDict {[ "candidates" :=
    PList [PDict {[ "content" :=
      PDict {[ "parts" := PList [PDict {[ "text" := v ]}] ]} ]}] ]}.

(** A string in double quotes, as JSON writes it. *)
Definition quoted (s : string) : string :=
  String (Ascii.ascii_of_nat 34) (s +:+ String (Ascii.ascii_of_nat 34) "").

(** The body [{"candidates":[{"content":{"parts":[{"text":"HELLO"}]}}]}]. *)
Definition hello_body : string :=
  "{" +:+ quoted "candidates" +:+ ":[{" +:+ quoted "content" +:+ ":{"
      +:+ quoted "parts" +:+ ":[{" +:+ quoted "text" +:+ ":" +:+ quoted "HELLO"
      +:+ "}]}}]}".

(** The state after the events [evs] have happened in [w]. *)
Definition advance (w : World) (evs : list Event) : World :=
  {| environ := environ w; transport := transport w;
     net_calls := posts evs + net_calls w; trace := trace w ++ evs |}.

(** ** Notions used in the statements *)

(** [raise_for_status] lets a response through when its status is outside
    400..599. *)
Definition http_error (r : Response) : bool :=
  (400 <=? status_code r)%Z && (status_code r <? 600)%Z.

(** The state after [n] iterations, starting with the one of index [attempt],
    have all fallen off the loop body ([Next]): the binding of [response] and
    the world the following iteration starts in.  [None] when one of them
    left the loop. *)
Fixpoint fell_through (MAX_RETRIES : nat) (BASE_DELAY : Z)
    (api_key user_query : string) (n attempt : nat)
    (response : option Response) (w : World)
    : option (option Response * World) :=
  match n with
  | O => Some (response, w)
  | S k =>
      match attempt_once MAX_RETRIES BASE_DELAY api_key user_query
              attempt response w with
      | (Next, response', w') =>
          fell_through MAX_RETRIES BASE_DELAY api_key user_query
            k (S attempt) response' w'
      | _ => None
      end
  end.

(** The first [n] attempts of a call that starts in [w] were all
    unsuccessful and let the loop go on. *)
Definition after_attempts (MAX_RETRIES : nat) (BASE_DELAY : Z)
    (api_key user_query : string) (n : nat) (w : World)
    : option (option Response * World) :=
  fell_through MAX_RETRIES BASE_DELAY api_key user_query n 0 None w.

(** The credential is set: [os.getenv] finds a non-empty key. *)
Definition credential (w : World) (api_key : string) : Prop :=
  os_getenv "GEMINI_API_KEY" w = Some api_key /\ api_key <> "".

(** Every one of the next [m] network calls of [w] for [req] is answered
    with a status in the retry list. *)
Definition all_retryable (req : Request) (w : World) (m : nat) : Prop :=
  forall k, (k < m)%nat ->
    exists r, transport w (net_calls w + k) req = PostReturns r
              /\ status_code r ∈ [429; 500; 503]%Z.

(** The delay slept after the attempt of index [attempt]. *)
Definition backoff_delay (BASE_DELAY : Z) (attempt : nat) : Z :=
  (BASE_DELAY * 2 ^ Z.of_nat attempt)%Z.

(** [n] network calls with the back-off delays between them, the first
    delay being that of attempt [attempt]. *)
Definition backoff_schedule (BASE_DELAY : Z) (attempt n : nat) : list (option Z) :=
  match n with
  | O => []
  | S m =>
      None :: flat_map (fun i => [Some (backoff_delay BASE_DELAY i); None])
                (seq attempt m)
  end.

(** The next [m] network calls are answered alike in [w1] and in [w2]. *)
Definition same_responses (w1 w2 : World) (m : nat) : Prop :=
  forall k req, (k < m)%nat ->
    transport w1 (net_calls w1 + k) req = transport w2 (net_calls w2 + k) req.

(** ** More sample worlds *)

Definition world_404 : World :=
  fresh_world (Some "k") (fun _ => http 404 "Not Found" (Undecodable false)).

(** The service answers 503 once and the connection then times out. *)
Definition world_503_then_timeout : World :=
  fresh_world (Some "k")
    (fun n => match n with
              | O => http 503 "" (Undecodable false)
              | _ => PostRaises ReadTimeout
              end).

Definition world_503_then_timeout_1 : World :=
  advance world_503_then_timeout
    [EPost (request "k" "hi"); EPrint (MsgRetrying 503 1); ESleep 1].



(** The service answers every call with 503. *)
Definition world_503 : World :=
  fresh_world (Some "k") (fun _ => http 503 "Service Unavailable" (Undecodable false)).

(** The world [world_503] after an earlier call for another query. *)
Definition world_503_later : World :=
  snd (generate_content "earlier" world_503).

(** The service answers every call with status 200 and an empty text. *)
Definition empty_text_response : Response :=
  {| status_code := 200;
     text := "{" +:+ quoted "candidates" +:+ ":[{" +:+ quoted "content" +:+ ":{"
               +:+ quoted "parts" +:+ ":[{" +:+ quoted "text" +:+ ":"
               +:+ quoted "" +:+ "}]}}]}";
     decoded := Json (answer (PStr "")) |}.

Definition world_empty_text : World :=
  fresh_world (Some "k") (fun _ => PostReturns empty_text_response).

Definition hello_response : Response :=
  {| status_code := 200; text := hello_body;
     decoded := Json (answer (PStr "HELLO")) |}.

Definition world_hello : World :=
  fresh_world (Some "k") (fun _ => PostReturns hello_response).



(** The service answers with a JSON array instead of an object. *)
Definition world_json_array : World :=
  fresh_world (Some "k")
    (fun _ => http 200 "[]" (Json (PList []))).

(** ** More observations *)

(** The requests of the network calls, in order. *)
Fixpoint requests_sent (evs : list Event) : list Request :=
  match evs with
  | [] => []
  | EPost req :: evs => req :: requests_sent evs
  | _ :: evs => requests_sent evs
  end.

(** The seconds slept in all. *)
Definition total_sleep (evs : list Event) : Z :=
  foldr Z.add 0%Z (sleeps evs).

(** An exception of a class that none of the three [except] clauses
    lists. *)
Definition unlisted (e : Exn) : Prop :=
  is_HTTPError e = false
  /\ is_RequestException e = false
  /\ is_parse_error e = false.

(** How an iteration of the loop may end. *)
Definition ends_well (c : Ctl) : Prop :=
  match c with
  | Return v => truthy v = true
  | Raise e => unlisted e
  | _ => True
  end.


(** The decoded object [d] lacks one of the keys on the way to the text:
    [candidates], or [content] in the first candidate, or [parts] in its
    content, or [text] in the first part. *)
Definition lacks_key (d : gmap string PyVal) : Prop :=
  d !! "candidates" = None
  \/ exists c cs,
       d !! "candidates" = Some (PList (PDict c :: cs))
       /\ (c !! "content" = None
           \/ exists k,
                c !! "content" = Some (PDict k)
                /\ (k !! "parts" = None
                    \/ exists p ps,
                         k !! "parts" = Some (PList (PDict p :: ps))
                         /\ p !! "text" = None)).

(** ** The command-line loop: [main] (lines 93-125) *)

(** What [input()] meets at the keyboard: a line, or Ctrl-C
    ([KeyboardInterrupt]).  When nothing is left to read it raises
    [EOFError]. *)
Inductive Key : Type :=
| Typed (line : string)
| CtrlC.

(** The exceptions the clause [except Exception] of [main] can see. *)
Inductive MainExn : Type :=
| CallError (e : Exn)      (* raised by [generate_content] *)
| EOFError                 (* raised by [input] *)
| UnicodeEncodeError.      (* raised by [print(result)] *)

(** What appears on the terminal during a session, in order. *)
Inductive Output : Type :=
| OutPrompt (prompt : string)        (* written by [input(prompt)] *)
| OutLine (line : string)            (* [print] of a literal *)
| OutResult (v : PyVal)              (* [print(result)] *)
| OutUnexpected (e : MainExn)        (* An unexpected error occurred: e *)
| OutCall (ev : Event).              (* what [generate_content] does *)

(** How a session ends: the world, the terminal and the keys never read. *)
Record Session : Type := {
  world : World;
  console : list Output;
  unread : list Key
}.

Definition NL : string := String (Ascii.ascii_of_nat 10) "".

(** [s * n] *)
Fixpoint str_repeat (s : string) (n : nat) : string :=
  match n with
  | O => ""
  | S k => s +:+ str_repeat s k
  end.

(** Lines 95-103. *)
Definition BANNER : list string :=
  [ "--- 🚀 PULP SCI-FI ORCHESTRATOR LAUNCHED 🚀 ---";
    "PURPOSE: This script forces the AI to use a specific, defined personality.";
    "WHAT IT DOES: Sends your plain query to the Gemini AI with a powerful System Instruction.";
    "WHAT TO EXPECT: Every response, no matter the query, will be a bombastic,";
    "hyperbolic narrative, using ALL CAPS and 1950s sci-fi clichés.";
    str_repeat "-" 60;
    "✅ Active Persona: 1950s Pulp Sci-Fi Narrator";
    "Type 'quit' or 'exit' to stop the program.";
    str_repeat "-" 60 ].

Definition PROMPT : string :=
  NL +:+ "Your Query (Type anything, Earth-speak): ".

Definition RESPONSE_HEADER : string :=
  NL +:+ "ORCHESTRATOR RESPONSE (COSMIC TRANSMISSION INCOMING...):".

Definition EXITING : string := NL +:+ "Exiting...".

Section Main.

(** Python's [str.lower] and [str.strip], taken as they are: the loop only
    compares their results. *)
Variable str_lower : string -> string.
Variable str_strip : string -> string.

(** Whether [print(result)] succeeds: the terminal's encoding must have every
    character of the text, and a lone surrogate, which a JSON string can
    carry, has none in any encoding.  When it fails, [print] raises
    [UnicodeEncodeError] before anything is written. *)
Variable can_print : PyVal -> bool.

(** The [while True] loop (lines 105-125).  Each iteration starts with
    [input], so the loop runs at most once per key and once more when the
    keys are used up.  [out] is what the terminal shows so far. *)
Fixpoint main_loop (keys : list Key) (w : World) (out : list Output)
    : Session :=
  match keys with
  | [] =>
      (* input raises EOFError: except Exception *)
      {| world := w;
         console := out ++ [OutPrompt PROMPT; OutUnexpected EOFError];
         unread := [] |}
  | CtrlC :: rest =>
      (* except KeyboardInterrupt *)
      {| world := w;
         console := out ++ [OutPrompt PROMPT; OutLine EXITING];
         unread := rest |}
  | Typed user_input :: rest =>
      let out := out ++ [OutPrompt PROMPT] in
      if bool_decide (str_lower user_input ∈ ["quit"; "exit"]) then
        {| world := w; console := out; unread := rest |}
      else if String.eqb (str_strip user_input) "" then
        main_loop rest w out
      else
        let out := out ++ [OutLine RESPONSE_HEADER] in
        let '(result, w') := generate_content user_input w in
        let out := out ++ map OutCall (events_since w w') in
        match result with
        | inl e =>
            {| world := w';
               console := out ++ [OutUnexpected (CallError e)];
               unread := rest |}
        | inr v =>
            if truthy v then
              if can_print v then main_loop rest w' (out ++ [OutResult v])
              else
                (* print raises inside the try: except Exception *)
                {| world := w';
                   console := out ++ [OutUnexpected UnicodeEncodeError];
                   unread := rest |}
            else main_loop rest w' out
        end
  end.

Definition main (keys : list Key) (w : World) : Session :=
  main_loop keys w (map OutLine BANNER).

End Main.

(** The two methods on ASCII text, where [str.lower] maps A-Z to a-z and
    [str.strip] removes the blanks at both ends. *)
Definition ascii_lower_char (c : Ascii.ascii) : Ascii.ascii :=
  let n := Ascii.nat_of_ascii c in
  if (65 <=? n)%nat && (n <=? 90)%nat then Ascii.ascii_of_nat (n + 32) else c.

Fixpoint ascii_lower (s : string) : string :=
  match s with
  | EmptyString => EmptyString
  | String c s => String (ascii_lower_char c) (ascii_lower s)
  end.

Definition ascii_blank (c : Ascii.ascii) : bool :=
  let n := Ascii.nat_of_ascii c in
  (n =? 32)%nat || ((9 <=? n)%nat && (n <=? 13)%nat)
  || ((28 <=? n)%nat && (n <=? 31)%nat).

Fixpoint ascii_lstrip (s : string) : string :=
  match s with
  | EmptyString => EmptyString
  | String c s' => if ascii_blank c then ascii_lstrip s' else s
  end.

Fixpoint ascii_rstrip (s : string) : string :=
  match s with
  | EmptyString => EmptyString
  | String c s' =>
      match ascii_rstrip s' with
      | EmptyString => if ascii_blank c then EmptyString else String c EmptyString
      | t => String c t
      end
  end.

Definition ascii_strip (s : string) : string := ascii_rstrip (ascii_lstrip s).

(** The requests a session sent. *)
Fixpoint session_requests (out : list Output) : list Request :=
  match out with
  | [] => []
  | OutCall (EPost req) :: out => req :: session_requests out
  | _ :: out => session_requests out
  end.

(** A line the loop hands to [generate_content]: neither an exit command
    nor blank. *)
Definition is_query (str_lower str_strip : string -> string) (line : string)
    : bool :=
  negb (bool_decide (str_lower line ∈ ["quit"; "exit"]))
  && negb (String.eqb (str_strip line) "").

(** The lines typed among the keys. *)
Fixpoint typed_lines (keys : list Key) : list string :=
  match keys with
  | [] => []
  | Typed s :: keys => s :: typed_lines keys
  | CtrlC :: keys => typed_lines keys
  end.

(** Two candidates, the first with two parts, and a key beside them. *)
Definition two_candidates : gmap string PyVal :=
  {[ "candidates" :=
       PList [PDict {[ "content" :=
                PDict {[ "parts" := PList [PDict {[ "text" := PStr "FIRST" ]};
                                           PDict {[ "text" := PStr "SECOND" ]}] ]} ]};
              PDict {[ "content" :=
                PDict {[ "parts" := PList [PDict {[ "text" := PStr "OTHER" ]}] ]} ]}];
     "usageMetadata" := PDict ∅ ]}.

(** A candidate whose content has no parts. *)
Definition no_parts : gmap string PyVal :=
  {[ "candidates" := PList [PDict {[ "content" := PDict {[ "role" := PStr "model" ]} ]}] ]}.

(** The service answers 200 with an empty text four times, then 503. *)
Definition world_503_on_fifth : World :=
  fresh_world (Some "k")
    (fun n => match n with
              | 4%nat => http 503 "" (Undecodable false)
              | _ => PostReturns empty_text_response
              end).

(** The service answers with a page that is not JSON. *)
Definition world_html : World :=
  fresh_world (Some "k") (fun _ => http 200 "<html>" (Undecodable false)).



(** The decoder meets an integer of more than 4300 digits. *)
Definition world_huge_integer : World :=
  fresh_world (Some "k") (fun _ => http 200 "1e..." (JsonRaises ValueError)).

(** * Properties *)

(** ** Observations distribute over concatenation *)

Lemma posts_app a b : posts (a ++ b) = (posts a + posts b)%nat.
Proof. unfold posts. by rewrite List.filter_app, length_app. Qed.

Lemma sleeps_app a b : sleeps (a ++ b) = sleeps a ++ sleeps b.
Proof.
  induction a as [|[] a IH]; simpl; [done | done | | done].
  by rewrite IH.
Qed.

Lemma printed_app a b : printed (a ++ b) = printed a ++ printed b.
Proof.
  induction a as [|[] a IH]; simpl; [done | done | done |].
  by rewrite IH.
Qed.

Lemma schedule_app a b : schedule (a ++ b) = schedule a ++ schedule b.
Proof. induction a as [|[] a IH]; simpl; by rewrite ?IH. Qed.

(** ** The primitives advance the world *)

Lemma advance_nil w : advance w [] = w.
Proof. destruct w. unfold advance. simpl. by rewrite app_nil_r. Qed.

Lemma advance_advance w a b : advance (advance w a) b = advance w (a ++ b).
Proof.
  unfold advance. simpl. rewrite posts_app, app_assoc. f_equal. lia.
Qed.

Lemma events_since_advance w evs : events_since w (advance w evs) = evs.
Proof. unfold events_since, advance. simpl. apply drop_app_length. Qed.

Lemma net_calls_advance w evs :
  net_calls (advance w evs) = (posts evs + net_calls w)%nat.
Proof. done. Qed.

Lemma requests_post_advance req w :
  requests_post req w = (transport w (net_calls w) req, advance w [EPost req]).
Proof. done. Qed.

Lemma print_advance m w : print m w = advance w [EPrint m].
Proof. done. Qed.

Lemma time_sleep_advance d w : time_sleep d w = advance w [ESleep d].
Proof. done. Qed.

Ltac advance_norm :=
  rewrite ?print_advance, ?time_sleep_advance, ?advance_advance; simpl app.

(** ** The function on sample worlds *)

Example generate_content_hello :
  generate_content "hi" world_hello
  = (ret (PStr "HELLO"), advance world_hello [EPost (request "k" "hi")]).
Proof. by vm_compute. Qed.

Example generate_content_503 :
  fst (generate_content "hi" world_503) = ret PNone
  /\ schedule (trace (snd (generate_content "hi" world_503)))
     = [None; Some 1; None; Some 2; None; Some 4; None; Some 8; None]%Z
  /\ printed (trace (snd (generate_content "hi" world_503)))
     = [MsgRetrying 503 1; MsgRetrying 503 2; MsgRetrying 503 4;
        MsgRetrying 503 8; MsgFatalHTTP (HTTPError 503); MsgGaveUp].
Proof. by vm_compute. Qed.

Example generate_content_404 :
  fst (generate_content "hi" world_404) = ret PNone
  /\ printed (trace (snd (generate_content "hi" world_404)))
     = [MsgFatalHTTP (HTTPError 404); MsgGaveUp].
Proof. by vm_compute. Qed.

(** [if text:] tests truthiness, not the type: a number in the place of the
    text is returned as it is. *)
Example generate_content_number :
  fst (generate_content "hi"
         (fresh_world (Some "k") (fun _ => http 200 "" (Json (answer (PInt 7))))))
  = ret (PInt 7).
Proof. by vm_compute. Qed.

(** With requests 2.27 or later a body that is not JSON is reported by the
    second clause, as a request error, and its text is not printed; with an
    older requests the third clause reports it and prints the text. *)
Example generate_content_not_json :
  printed (trace (snd (generate_content "hi"
                        (fresh_world (Some "k")
                           (fun _ => http 200 "<html>" (Undecodable false))))))
  = [MsgRequestError RequestsJSONDecodeError; MsgGaveUp]
  /\ printed (trace (snd (generate_content "hi"
                           (fresh_world (Some "k")
                              (fun _ => http 200 "<html>" (Undecodable true))))))
     = [MsgParseFailed JSONDecodeError; MsgRawResponse "<html>"; MsgGaveUp].
Proof. by vm_compute. Qed.

(** An exception of the decoder that no clause lists leaves the call. *)
Example generate_content_value_error :
  generate_content "hi" world_huge_integer
  = (raise ValueError, advance world_huge_integer [EPost (request "k" "hi")]).
Proof. by vm_compute. Qed.

(** ** One iteration of the loop *)

Lemma raise_for_status_ok r : http_error r = false -> raise_for_status r = ret tt.
Proof. unfold raise_for_status, http_error. by intros ->. Qed.

Lemma raise_for_status_error r :
  http_error r = true -> raise_for_status r = raise (HTTPError (status_code r)).
Proof. unfold raise_for_status, http_error. by intros ->. Qed.

Lemma retryable_is_http_error r :
  status_code r ∈ [429; 500; 503]%Z -> http_error r = true.
Proof.
  unfold http_error. intros H.
  repeat (apply elem_of_cons in H as [-> | H]); try done.
  by apply elem_of_nil in H.
Qed.

Section Iteration.

Variable MAX_RETRIES : nat.
Variable BASE_DELAY : Z.
Variables api_key user_query : string.

Let req := request api_key user_query.
Let iteration := attempt_once MAX_RETRIES BASE_DELAY api_key user_query.

(** A retryable status before the last attempt: print, sleep, go on. *)
Lemma attempt_once_backoff attempt response w r :
  transport w (net_calls w) req = PostReturns r ->
  status_code r ∈ [429; 500; 503]%Z ->
  (attempt < MAX_RETRIES - 1)%nat ->
  iteration attempt response w =
    (Next, Some r,
     advance w [EPost req;
                EPrint (MsgRetrying (status_code r)
                          (BASE_DELAY * 2 ^ Z.of_nat attempt));
                ESleep (BASE_DELAY * 2 ^ Z.of_nat attempt)]).
Proof.
  intros Hpost Hretry Hlt.
  unfold iteration, attempt_once.
  rewrite requests_post_advance. fold req. rewrite Hpost.
  unfold try_response.
  rewrite (raise_for_status_error r (retryable_is_http_error r Hretry)).
  unfold bind, raise, except. simpl. rewrite bool_decide_eq_true_2 by done.
  replace (Z.of_nat attempt <? Z.of_nat MAX_RETRIES - 1)%Z with true
    by (symmetry; apply Z.ltb_lt; lia).
  simpl. by advance_norm.
Qed.

(** An HTTP error that is not retried: a status outside the list, or the
    last attempt. *)
Lemma attempt_once_fatal attempt response w r :
  transport w (net_calls w) req = PostReturns r ->
  http_error r = true ->
  status_code r ∉ [429; 500; 503]%Z \/ (MAX_RETRIES - 1 <= attempt)%nat ->
  iteration attempt response w =
    (Break, Some r,
     advance w [EPost req; EPrint (MsgFatalHTTP (HTTPError (status_code r)))]).
Proof.
  intros Hpost Herr Hstop.
  unfold iteration, attempt_once.
  rewrite requests_post_advance. fold req. rewrite Hpost.
  unfold try_response. rewrite (raise_for_status_error r Herr).
  unfold bind, raise, except. simpl.
  replace (bool_decide (status_code r ∈ [429; 500; 503]%Z)
           && (Z.of_nat attempt <? Z.of_nat MAX_RETRIES - 1)%Z) with false.
  - by advance_norm.
  - symmetry. apply andb_false_iff. destruct Hstop as [Hs | Hlast].
    + left. by apply bool_decide_eq_false_2.
    + right. apply Z.ltb_ge. lia.
Qed.

(** A network-level error: no retry. *)
Lemma attempt_once_network attempt response w k :
  transport w (net_calls w) req = PostRaises k ->
  iteration attempt response w =
    (Break, response,
     advance w [EPost req; EPrint (MsgRequestError (RequestError k))]).
Proof.
  intros Hpost.
  unfold iteration, attempt_once.
  rewrite requests_post_advance. fold req. rewrite Hpost.
  unfold except. simpl. by advance_norm.
Qed.

(** A response that passes [raise_for_status] and decodes, with an
    extraction that does not raise. *)
Lemma attempt_once_extracted attempt response w r data text :
  transport w (net_calls w) req = PostReturns r ->
  http_error r = false ->
  decoded r = Json data ->
  extract_text data = ret text ->
  iteration attempt response w =
    (if truthy text then Return text else Next, Some r,
     advance w [EPost req]).
Proof.
  intros Hpost Hok Hjson Htext.
  unfold iteration, attempt_once.
  rewrite requests_post_advance. fold req. rewrite Hpost.
  unfold try_response, response_json.
  rewrite (raise_for_status_ok r Hok), Hjson. simpl.
  by rewrite Htext.
Qed.


(** An exception no clause catches leaves the function. *)
Lemma attempt_once_uncaught attempt response w r e :
  transport w (net_calls w) req = PostReturns r ->
  try_response r = raise e ->
  e = AttributeError \/ e = TypeError ->
  iteration attempt response w = (Raise e, Some r, advance w [EPost req]).
Proof.
  intros Hpost Htry He.
  unfold iteration, attempt_once.
  rewrite requests_post_advance. fold req. rewrite Hpost, Htry.
  unfold raise, except. by destruct He as [-> | ->].
Qed.

End Iteration.

(** ** The loop *)

Section Loop.

Variable MAX_RETRIES : nat.
Variable BASE_DELAY : Z.
Variables api_key user_query : string.

Let iteration := attempt_once MAX_RETRIES BASE_DELAY api_key user_query.
Let loop := for_range MAX_RETRIES BASE_DELAY api_key user_query.
Let prefix := fell_through MAX_RETRIES BASE_DELAY api_key user_query.

Lemma for_range_fell_through n k attempt response w response' w' :
  prefix n attempt response w = Some (response', w') ->
  loop (n + k)%nat attempt response w = loop k (n + attempt)%nat response' w'.
Proof.
  unfold prefix, loop. revert attempt response w.
  induction n as [|n IH]; intros attempt response w; simpl.
  - by intros [= -> ->].
  - destruct (attempt_once MAX_RETRIES BASE_DELAY api_key user_query
                attempt response w) as [[[] r1] w1]; try done.
    intros H. rewrite (IH _ _ _ H). f_equal. lia.
Qed.

(** The loop stops at the first iteration that does not fall through. *)
Lemma for_range_stops n k response w response' w' c response'' w'' :
  prefix n 0%nat response w = Some (response', w') ->
  iteration n response' w' = (c, response'', w'') ->
  c <> Next ->
  loop (n + S k)%nat 0%nat response w = (c, w'').
Proof.
  intros Hpre Hit Hc.
  rewrite (for_range_fell_through _ _ _ _ _ _ _ Hpre).
  rewrite Nat.add_0_r. unfold loop, iteration in *. simpl. rewrite Hit.
  by destruct c.
Qed.

Lemma generate_content_with_credential w :
  credential w api_key ->
  generate_content_with MAX_RETRIES BASE_DELAY user_query w =
    match loop MAX_RETRIES 0%nat None w with
    | (Return v, w') => (ret v, w')
    | (Raise e, w') => (raise e, w')
    | (_, w') => (ret PNone, print MsgGaveUp w')
    end.
Proof.
  intros [Hkey Hne]. unfold generate_content_with. rewrite Hkey.
  by apply String.eqb_neq in Hne as ->.
Qed.

(** What the call makes of an iteration [n < MAX_RETRIES] that leaves the
    loop, the [n] before it having fallen through. *)
Lemma generate_content_with_stops n w response' w' c response'' w'' :
  credential w api_key ->
  (n < MAX_RETRIES)%nat ->
  after_attempts MAX_RETRIES BASE_DELAY api_key user_query n w
    = Some (response', w') ->
  iteration n response' w' = (c, response'', w'') ->
  c <> Next ->
  generate_content_with MAX_RETRIES BASE_DELAY user_query w =
    match c with
    | Return v => (ret v, w'')
    | Raise e => (raise e, w'')
    | _ => (ret PNone, print MsgGaveUp w'')
    end.
Proof.
  intros Hcred Hn Hpre Hit Hc.
  rewrite (generate_content_with_credential w Hcred).
  pose proof (for_range_stops n (MAX_RETRIES - S n) _ _ _ _ _ _ _
                Hpre Hit Hc) as Hloop.
  replace (n + S (MAX_RETRIES - S n))%nat with MAX_RETRIES in Hloop by lia.
  by rewrite Hloop.
Qed.

(** When every iteration falls through, the loop ends normally. *)
Lemma generate_content_with_exhausted w response' w' :
  credential w api_key ->
  after_attempts MAX_RETRIES BASE_DELAY api_key user_query MAX_RETRIES w
    = Some (response', w') ->
  generate_content_with MAX_RETRIES BASE_DELAY user_query w =
    (ret PNone, print MsgGaveUp w').
Proof.
  intros Hcred Hpre.
  rewrite (generate_content_with_credential w Hcred).
  pose proof (for_range_fell_through MAX_RETRIES 0 _ _ _ _ _ Hpre) as Hloop.
  rewrite Nat.add_0_r in Hloop. by rewrite Hloop.
Qed.

(** One more iteration that falls through extends the prefix. *)
Lemma fell_through_snoc n attempt response w response' w' response'' w'' :
  prefix n attempt response w = Some (response', w') ->
  iteration (n + attempt)%nat response' w' = (Next, response'', w'') ->
  prefix (S n) attempt response w = Some (response'', w'').
Proof.
  unfold prefix, iteration. revert attempt response w.
  induction n as [|n IH]; intros attempt response w; simpl.
  - intros [= -> ->] Hit. by rewrite Hit.
  - destruct (attempt_once MAX_RETRIES BASE_DELAY api_key user_query
                attempt response w) as [[[] r1] w1]; try done.
    intros Hpre Hit. apply (IH _ _ _ Hpre).
    by replace (n + S attempt)%nat with (S (n + attempt)) by lia.
Qed.

End Loop.

(** * The claims *)

(** ** Missing credential *)

(** C4.  When the environment holds no API key (the variable is unset, or set
    to the empty string, which [if not api_key] treats alike), the call
    returns [None] at once having printed the two lines about the key: no
    network call is made, and the network-call counter is unchanged. *)
Theorem C4_missing_credential_no_network (user_query : string) (w : World) :
  os_getenv "GEMINI_API_KEY" w = None \/ os_getenv "GEMINI_API_KEY" w = Some "" ->
  generate_content user_query w =
    (ret PNone, advance w [EPrint MsgKeyNotSet; EPrint MsgPleaseSetKey])
  /\ posts (events_since w (snd (generate_content user_query w))) = 0%nat
  /\ net_calls (snd (generate_content user_query w)) = net_calls w.
Proof.
  intros Hkey.
  assert (generate_content user_query w =
    (ret PNone, advance w [EPrint MsgKeyNotSet; EPrint MsgPleaseSetKey])) as ->.
  { unfold generate_content, generate_content_with.
    destruct Hkey as [-> | ->]; simpl; by advance_norm. }
  simpl. by rewrite events_since_advance.
Qed.

Lemma C4_witness :
  (os_getenv "GEMINI_API_KEY" (fresh_world None (fun _ => PostRaises ReadTimeout)) = None
   \/ os_getenv "GEMINI_API_KEY" (fresh_world None (fun _ => PostRaises ReadTimeout))
      = Some "")
  /\ net_calls (snd (generate_content "hi"
                       (fresh_world None (fun _ => PostRaises ReadTimeout)))) = 0%nat.
Proof.
  split.
  - left. reflexivity.
  - apply (C4_missing_credential_no_network "hi"
             (fresh_world None (fun _ => PostRaises ReadTimeout))).
    left. reflexivity.
Defined.

(** ** HTTP errors that are not retried *)

(** C3.  When the first response carries an HTTP error status (400..599)
    outside the list 429, 500, 503, the call makes that one network call,
    prints the fatal HTTP error and the final failure line, and returns
    [None]: exactly one attempt, and no sleep. *)
Theorem C3_non_retryable_status_one_attempt
    (user_query api_key : string) (w : World) (r : Response) :
  credential w api_key ->
  transport w (net_calls w) (request api_key user_query) = PostReturns r ->
  (400 <= status_code r < 600)%Z ->
  status_code r ∉ [429; 500; 503]%Z ->
  generate_content user_query w =
    (ret PNone,
     advance w [EPost (request api_key user_query);
                EPrint (MsgFatalHTTP (HTTPError (status_code r)));
                EPrint MsgGaveUp])
  /\ posts (events_since w (snd (generate_content user_query w))) = 1%nat
  /\ sleeps (events_since w (snd (generate_content user_query w))) = [].
Proof.
  intros Hcred Hpost Hrange Hstatus.
  assert (http_error r = true) as Herr.
  { unfold http_error. apply andb_true_iff. split; [apply Z.leb_le | apply Z.ltb_lt]; lia. }
  assert (generate_content user_query w =
    (ret PNone,
     advance w [EPost (request api_key user_query);
                EPrint (MsgFatalHTTP (HTTPError (status_code r)));
                EPrint MsgGaveUp])) as ->.
  { unfold generate_content.
    rewrite (generate_content_with_stops 5 1 api_key user_query 0 w None w
               Break (Some r)
               (advance w [EPost (request api_key user_query);
                           EPrint (MsgFatalHTTP (HTTPError (status_code r)))]));
      try done; [by advance_norm | lia |].
    apply attempt_once_fatal; auto. }
  simpl. by rewrite events_since_advance.
Qed.

Lemma C3_witness :
  credential world_404 "k"
  /\ posts (events_since world_404 (snd (generate_content "hi" world_404))) = 1%nat
  /\ sleeps (events_since world_404 (snd (generate_content "hi" world_404))) = [].
Proof.
  assert (credential world_404 "k") as Hcred by (split; [reflexivity | discriminate]).
  split; [exact Hcred |].
  apply (C3_non_retryable_status_one_attempt "hi" "k" world_404
           {| status_code := 404; text := "Not Found"; decoded := Undecodable false |}
           Hcred eq_refl).
  - simpl. lia.
  - simpl. intros H. repeat (apply elem_of_cons in H as [H | H]; [discriminate |]).
    by apply elem_of_nil in H.
Defined.

(** ** Network errors *)

(** C7.  When [requests.post] raises a network-level error in any attempt
    (the attempts before it, if any, having let the loop go on), the call
    makes no further attempt and does not sleep: after that network call it
    prints the request error and the final failure line and returns [None].
    The failure is reported by a line of its own: nothing about a fatal HTTP
    error is printed. *)
Theorem C7_network_error_not_retried
    (user_query api_key : string) (w : World) (n : nat)
    (response' : option Response) (w' : World) (k : NetFailure) :
  credential w api_key ->
  (n < 5)%nat ->
  after_attempts 5 1 api_key user_query n w = Some (response', w') ->
  transport w' (net_calls w') (request api_key user_query) = PostRaises k ->
  generate_content user_query w =
    (ret PNone,
     advance w' [EPost (request api_key user_query);
                 EPrint (MsgRequestError (RequestError k));
                 EPrint MsgGaveUp])
  /\ posts (events_since w' (snd (generate_content user_query w))) = 1%nat
  /\ sleeps (events_since w' (snd (generate_content user_query w))) = []
  /\ forall e, MsgFatalHTTP e ∉ printed (events_since w' (snd (generate_content user_query w))).
Proof.
  intros Hcred Hn Hpre Hpost.
  assert (generate_content user_query w =
    (ret PNone,
     advance w' [EPost (request api_key user_query);
                 EPrint (MsgRequestError (RequestError k));
                 EPrint MsgGaveUp])) as ->.
  { unfold generate_content.
    rewrite (generate_content_with_stops 5 1 api_key user_query n w response' w'
               Break response'
               (advance w' [EPost (request api_key user_query);
                            EPrint (MsgRequestError (RequestError k))]));
      try done; [by advance_norm |].
    by apply attempt_once_network. }
  simpl. rewrite events_since_advance. simpl. repeat split; try done.
  intros e H. repeat (apply elem_of_cons in H as [H | H]; [discriminate |]).
  by apply elem_of_nil in H.
Qed.

Lemma C7_witness :
  credential world_503_then_timeout "k"
  /\ after_attempts 5 1 "k" "hi" 1 world_503_then_timeout
     = Some (Some {| status_code := 503; text := ""; decoded := Undecodable false |},
             world_503_then_timeout_1)
  /\ fst (generate_content "hi" world_503_then_timeout) = ret PNone
  /\ posts (events_since world_503_then_timeout_1
              (snd (generate_content "hi" world_503_then_timeout))) = 1%nat.
Proof.
  assert (credential world_503_then_timeout "k") as Hcred
    by (split; [reflexivity | discriminate]).
  assert (after_attempts 5 1 "k" "hi" 1 world_503_then_timeout
     = Some (Some {| status_code := 503; text := ""; decoded := Undecodable false |},
             world_503_then_timeout_1)) as Hpre by reflexivity.
  destruct (C7_network_error_not_retried "hi" "k" world_503_then_timeout 1 _ _
              ReadTimeout Hcred ltac:(lia) Hpre eq_refl) as (Heq & Hposts & _).
  split; [exact Hcred |]. split; [exact Hpre |].
  split; [by rewrite Heq | exact Hposts].
Defined.

(** ** An empty list of candidates *)



Lemma http_error_false r :
  ~ (400 <= status_code r < 600)%Z -> http_error r = false.
Proof.
  intros H. unfold http_error. apply andb_false_iff.
  destruct (Z.leb_spec 400 (status_code r)); [right | by left].
  apply Z.ltb_ge. lia.
Qed.



(** ** Exponential back-off *)

Section Backoff.

Variable MAX_RETRIES : nat.
Variable BASE_DELAY : Z.
Variables api_key user_query : string.

Let req := request api_key user_query.

Lemma all_retryable_step w evs m :
  all_retryable req w (S m) ->
  posts evs = 1%nat ->
  all_retryable req (advance w evs) m.
Proof.
  intros H Hposts k Hk. simpl. rewrite Hposts.
  replace (1 + net_calls w + k)%nat with (net_calls w + S k)%nat by lia.
  apply H. lia.
Qed.

(** With retryable answers only, the last [S m] iterations of the loop make
    [S m] calls, sleep between them and end in the [break] of the last. *)
Lemma for_range_all_retryable m :
  forall attempt response w,
    (attempt + S m = MAX_RETRIES)%nat ->
    all_retryable req w (S m) ->
    exists evs,
      for_range MAX_RETRIES BASE_DELAY api_key user_query
        (S m) attempt response w = (Break, advance w evs)
      /\ posts evs = S m
      /\ sleeps evs = map (backoff_delay BASE_DELAY) (seq attempt m)
      /\ schedule evs = backoff_schedule BASE_DELAY attempt (S m).
Proof.
  induction m as [|m IH]; intros attempt response w Hlen Hall.
  - destruct (Hall 0%nat ltac:(lia)) as (r & Hpost & Hstatus).
    rewrite Nat.add_0_r in Hpost.
    eexists. split.
    + simpl. rewrite (attempt_once_fatal MAX_RETRIES BASE_DELAY api_key user_query
                        attempt response w r Hpost
                        (retryable_is_http_error r Hstatus)); [done | right; lia].
    + done.
  - destruct (Hall 0%nat ltac:(lia)) as (r & Hpost & Hstatus).
    rewrite Nat.add_0_r in Hpost.
    pose proof (attempt_once_backoff MAX_RETRIES BASE_DELAY api_key user_query
                  attempt response w r Hpost Hstatus ltac:(lia)) as Hit.
    fold req in Hit. fold (backoff_delay BASE_DELAY attempt) in Hit.
    set (evs0 := [EPost req;
                  EPrint (MsgRetrying (status_code r) (backoff_delay BASE_DELAY attempt));
                  ESleep (backoff_delay BASE_DELAY attempt)]) in Hit.
    destruct (IH (S attempt) (Some r) (advance w evs0) ltac:(lia)
                (all_retryable_step w evs0 (S m) Hall eq_refl))
      as (evs & Hloop & Hposts & Hsleeps & Hsched).
    exists (evs0 ++ evs). split; [| split; [| split]].
    + change (for_range MAX_RETRIES BASE_DELAY api_key user_query
                (S (S m)) attempt response w)
        with (let '(c, response', w') :=
                attempt_once MAX_RETRIES BASE_DELAY api_key user_query
                  attempt response w in
              match c with
              | Next => for_range MAX_RETRIES BASE_DELAY api_key user_query
                          (S m) (S attempt) response' w'
              | _ => (c, w')
              end).
      rewrite Hit, Hloop. by rewrite advance_advance.
    + rewrite posts_app, Hposts. done.
    + rewrite sleeps_app, Hsleeps. done.
    + rewrite schedule_app, Hsched. done.
Qed.

(** The whole call, when every attempt is answered with a retryable
    status. *)
Lemma generate_content_with_all_retryable w :
  credential w api_key ->
  all_retryable req w MAX_RETRIES ->
  exists evs,
    generate_content_with MAX_RETRIES BASE_DELAY user_query w
      = (ret PNone, advance w evs)
    /\ posts evs = MAX_RETRIES
    /\ sleeps evs = map (backoff_delay BASE_DELAY) (seq 0 (MAX_RETRIES - 1))
    /\ schedule evs = backoff_schedule BASE_DELAY 0 MAX_RETRIES
    /\ last (printed evs) = Some MsgGaveUp.
Proof.
  intros Hcred Hall.
  rewrite (generate_content_with_credential _ _ _ _ _ Hcred).
  remember MAX_RETRIES as n eqn:Hn in Hall |- * at 2 3 4 5.
  destruct n as [|m].
  - exists [EPrint MsgGaveUp]. simpl. by advance_norm.
  - destruct (for_range_all_retryable m 0%nat None w ltac:(lia) Hall)
      as (evs & Hloop & Hposts & Hsleeps & Hsched).
    exists (evs ++ [EPrint MsgGaveUp]).
    rewrite Hloop. advance_norm.
    rewrite posts_app, sleeps_app, schedule_app, printed_app, Hposts, Hsleeps, Hsched.
    simpl. rewrite !app_nil_r, Nat.sub_0_r, last_snoc.
    repeat split; try done; lia.
Qed.

End Backoff.

(** C1.  With [MAX_RETRIES = N] and any base delay, when each of the [N]
    attempts is answered with a status among 429, 500 and 503, the call makes
    exactly [N] network calls, sleeps [BASE_DELAY * 2^i] after the attempt of
    index [i] for [i = 0 .. N-2] and at no other time (so the delays lie
    between consecutive attempts and none follows the last), and then fails:
    it prints the final failure line and returns [None].  The source takes
    [N = 5]. *)
Theorem C1_retryable_statuses_exhaust_attempts
    (N : nat) (BASE_DELAY : Z) (user_query api_key : string) (w : World) :
  credential w api_key ->
  all_retryable (request api_key user_query) w N ->
  let w' := snd (generate_content_with N BASE_DELAY user_query w) in
  fst (generate_content_with N BASE_DELAY user_query w) = ret PNone
  /\ net_calls w' = (N + net_calls w)%nat
  /\ posts (events_since w w') = N
  /\ sleeps (events_since w w')
     = map (fun i => (BASE_DELAY * 2 ^ Z.of_nat i)%Z) (seq 0 (N - 1))
  /\ schedule (events_since w w') = backoff_schedule BASE_DELAY 0 N
  /\ last (printed (events_since w w')) = Some MsgGaveUp.
Proof.
  intros Hcred Hall.
  destruct (generate_content_with_all_retryable N BASE_DELAY api_key user_query
              w Hcred Hall) as (evs & -> & Hposts & Hsleeps & Hsched & Hlast).
  simpl. rewrite events_since_advance, Hposts. done.
Qed.

Lemma world_503_credential : credential world_503 "k".
Proof. split; [reflexivity | discriminate]. Qed.

Lemma world_503_all_retryable n : all_retryable (request "k" "hi") world_503 n.
Proof.
  intros k _. eexists. split; [reflexivity |]. simpl.
  rewrite !elem_of_cons. tauto.
Qed.

Lemma C1_witness :
  credential world_503 "k"
  /\ all_retryable (request "k" "hi") world_503 3
  /\ fst (generate_content_with 3 2 "hi" world_503) = ret PNone
  /\ net_calls (snd (generate_content_with 3 2 "hi" world_503)) = 3%nat
  /\ sleeps (events_since world_503 (snd (generate_content_with 3 2 "hi" world_503)))
     = [2; 4]%Z.
Proof.
  destruct (C1_retryable_statuses_exhaust_attempts 3 2 "hi" "k" world_503
              world_503_credential (world_503_all_retryable 3))
    as (Hres & Hcalls & _ & Hsleeps & _).
  split; [exact world_503_credential |].
  split; [exact (world_503_all_retryable 3) |].
  split; [exact Hres |].
  split; [exact Hcalls | exact Hsleeps].
Defined.

(** C6, as the code has it.  Under the default policy ([MAX_RETRIES = 5],
    [BASE_DELAY = 1]), when every attempt is answered with a retryable status
    the delays slept before giving up are 1, 2, 4 and 8 seconds: the fifth
    attempt is the last and nothing is slept after it. *)
Theorem C6_default_delays_1_2_4_8
    (user_query api_key : string) (w : World) :
  credential w api_key ->
  all_retryable (request api_key user_query) w 5 ->
  sleeps (events_since w (snd (generate_content user_query w))) = [1; 2; 4; 8]%Z
  /\ posts (events_since w (snd (generate_content user_query w))) = 5%nat.
Proof.
  intros Hcred Hall. unfold generate_content.
  destruct (generate_content_with_all_retryable 5 1 api_key user_query
              w Hcred Hall) as (evs & -> & Hposts & Hsleeps & _).
  simpl. by rewrite events_since_advance, Hposts, Hsleeps.
Qed.

Lemma C6_witness :
  credential world_503 "k"
  /\ all_retryable (request "k" "hi") world_503 5
  /\ sleeps (events_since world_503 (snd (generate_content "hi" world_503)))
     = [1; 2; 4; 8]%Z.
Proof.
  split; [exact world_503_credential |].
  split; [exact (world_503_all_retryable 5) |].
  apply (C6_default_delays_1_2_4_8 "hi" "k" world_503
           world_503_credential (world_503_all_retryable 5)).
Defined.

(** C6 as stated fails: with 503 on every attempt the delays slept are not
    1, 2, 4, 8, 16; no sleep of 16 seconds takes place. *)
Lemma C6_counterexample :
  all_retryable (request "k" "hi") world_503 5
  /\ sleeps (events_since world_503 (snd (generate_content "hi" world_503)))
     <> [1; 2; 4; 8; 16]%Z.
Proof.
  split; [exact (world_503_all_retryable 5) |].
  vm_compute. discriminate.
Qed.

(** ** The call depends on the key and the responses only *)

Lemma same_responses_refl w m : same_responses w w m.
Proof. by intros k req _. Qed.

Lemma same_responses_step w1 w2 evs m :
  same_responses w1 w2 (S m) ->
  posts evs = 1%nat ->
  same_responses (advance w1 evs) (advance w2 evs) m.
Proof.
  intros H Hposts k req Hk. simpl. rewrite Hposts.
  replace (1 + net_calls w1 + k)%nat with (net_calls w1 + S k)%nat by lia.
  replace (1 + net_calls w2 + k)%nat with (net_calls w2 + S k)%nat by lia.
  apply H. lia.
Qed.

Section Determinism.

Variable MAX_RETRIES : nat.
Variable BASE_DELAY : Z.
Variables api_key user_query : string.

Let req := request api_key user_query.

Ltac same_events :=
  advance_norm; eexists _, _, _;
  split; [reflexivity | split; [reflexivity | reflexivity]].

(** One iteration does the same in both worlds; it starts with the network
    call and makes no other. *)
Lemma attempt_once_same_responses attempt response w1 w2 m :
  same_responses w1 w2 (S m) ->
  exists c response' evs,
    attempt_once MAX_RETRIES BASE_DELAY api_key user_query attempt response w1
      = (c, response', advance w1 (EPost req :: evs))
    /\ attempt_once MAX_RETRIES BASE_DELAY api_key user_query attempt response w2
      = (c, response', advance w2 (EPost req :: evs))
    /\ posts evs = 0%nat.
Proof.
  intros H. unfold attempt_once. rewrite !requests_post_advance. fold req.
  pose proof (H 0%nat req ltac:(lia)) as H0. rewrite !Nat.add_0_r in H0.
  rewrite <- H0.
  destruct (transport w1 (net_calls w1) req) as [k | r].
  - unfold except. simpl. same_events.
  - destruct (try_response r) as [e | c]; [| same_events].
    unfold except.
    destruct (is_HTTPError e).
    { destruct (bool_decide _ && _); same_events. }
    destruct (is_RequestException e); [same_events |].
    destruct (is_parse_error e); [| same_events].
    destruct (negb _); same_events.
Qed.

Lemma for_range_same_responses remaining :
  forall attempt response w1 w2,
    same_responses w1 w2 remaining ->
    exists c evs,
      for_range MAX_RETRIES BASE_DELAY api_key user_query
        remaining attempt response w1 = (c, advance w1 evs)
      /\ for_range MAX_RETRIES BASE_DELAY api_key user_query
        remaining attempt response w2 = (c, advance w2 evs)
      /\ (0 < remaining -> exists evs', evs = EPost req :: evs')%nat.
Proof.
  induction remaining as [|m IH]; intros attempt response w1 w2 H.
  - exists Next, []. rewrite !advance_nil. repeat split; try done. lia.
  - destruct (attempt_once_same_responses attempt response w1 w2 m H)
      as (c & response' & evs0 & H1 & H2 & Hposts).
    simpl. rewrite H1, H2.
    destruct c; try (eexists _, _; repeat split; eauto; fail).
    destruct (IH (S attempt) response' _ _
                (same_responses_step w1 w2 (EPost req :: evs0) m H
                   ltac:(simpl; by rewrite <- Hposts)))
      as (c & evs & -> & -> & _).
    exists c, ((EPost req :: evs0) ++ evs).
    rewrite !advance_advance. repeat split; eauto.
Qed.

End Determinism.

(** The whole call: same key, same responses, hence the same result and the
    same events, whatever else the two worlds hold. *)
Lemma generate_content_with_same_responses
    (MAX_RETRIES : nat) (BASE_DELAY : Z) (user_query : string) (w1 w2 : World) :
  os_getenv "GEMINI_API_KEY" w1 = os_getenv "GEMINI_API_KEY" w2 ->
  same_responses w1 w2 MAX_RETRIES ->
  exists result evs,
    generate_content_with MAX_RETRIES BASE_DELAY user_query w1
      = (result, advance w1 evs)
    /\ generate_content_with MAX_RETRIES BASE_DELAY user_query w2
      = (result, advance w2 evs).
Proof.
  intros Hkey H. unfold generate_content_with. rewrite <- Hkey.
  destruct (os_getenv "GEMINI_API_KEY" w1) as [key |];
    [destruct (String.eqb key "") |];
    try (advance_norm; eexists _, _; split; reflexivity).
  destruct (for_range_same_responses MAX_RETRIES BASE_DELAY key user_query
              MAX_RETRIES 0%nat None w1 w2 H) as (c & evs & -> & -> & _).
  destruct c; advance_norm; eexists _, _; split; reflexivity.
Qed.

(** C8.  Two invocations with the same query, the same credential in the
    environment and the same sequence of transport responses return the same
    value and do the same things, whatever the rest of the state they start
    in (the calls made and the lines printed before): the function keeps no
    state of its own between calls. *)
Theorem C8_same_inputs_same_result
    (user_query : string) (w1 w2 : World) :
  os_getenv "GEMINI_API_KEY" w1 = os_getenv "GEMINI_API_KEY" w2 ->
  same_responses w1 w2 5 ->
  fst (generate_content user_query w1) = fst (generate_content user_query w2)
  /\ events_since w1 (snd (generate_content user_query w1))
     = events_since w2 (snd (generate_content user_query w2)).
Proof.
  intros Hkey H. unfold generate_content.
  destruct (generate_content_with_same_responses 5 1 user_query w1 w2 Hkey H)
    as (result & evs & -> & ->).
  simpl. by rewrite !events_since_advance.
Qed.

(** In particular a second invocation, made in the world the first one left
    behind, returns what the first returned when the transport replays its
    responses. *)
Corollary generate_content_twice (user_query : string) (w : World) :
  same_responses (snd (generate_content user_query w)) w 5 ->
  fst (generate_content user_query (snd (generate_content user_query w)))
  = fst (generate_content user_query w).
Proof.
  intros H. unfold generate_content in *.
  destruct (generate_content_with_same_responses 5 1 user_query w w eq_refl
              (same_responses_refl w 5)) as (result & evs & Hrun & _).
  rewrite Hrun in *. simpl in *.
  destruct (generate_content_with_same_responses 5 1 user_query
              (advance w evs) w eq_refl H) as (result' & evs' & -> & Hrun').
  rewrite Hrun in Hrun'. by injection Hrun' as -> _.
Qed.

Lemma C8_witness :
  os_getenv "GEMINI_API_KEY" world_503_later = os_getenv "GEMINI_API_KEY" world_503
  /\ same_responses world_503_later world_503 5
  /\ fst (generate_content "hi" world_503_later)
     = fst (generate_content "hi" world_503).
Proof.
  assert (same_responses world_503_later world_503 5) as H
    by (intros k req _; reflexivity).
  split; [reflexivity |]. split; [exact H |].
  apply (C8_same_inputs_same_result "hi" world_503_later world_503 eq_refl H).
Defined.

(** ** Responses without a usable text *)


Section Resume.

Variable MAX_RETRIES : nat.
Variable BASE_DELAY : Z.
Variables api_key user_query : string.

Let req := request api_key user_query.

(** The call picks up after [n] attempts that fell through. *)
Lemma generate_content_with_resume n w response' w' :
  credential w api_key ->
  (n <= MAX_RETRIES)%nat ->
  after_attempts MAX_RETRIES BASE_DELAY api_key user_query n w
    = Some (response', w') ->
  generate_content_with MAX_RETRIES BASE_DELAY user_query w =
    match for_range MAX_RETRIES BASE_DELAY api_key user_query
            (MAX_RETRIES - n) n response' w' with
    | (Return v, w'') => (ret v, w'')
    | (Raise e, w'') => (raise e, w'')
    | (_, w'') => (ret PNone, print MsgGaveUp w'')
    end.
Proof.
  intros Hcred Hn Hpre.
  rewrite (generate_content_with_credential _ _ _ _ _ Hcred).
  pose proof (for_range_fell_through MAX_RETRIES BASE_DELAY api_key user_query
                n (MAX_RETRIES - n) _ _ _ _ _ Hpre) as Hloop.
  replace (n + (MAX_RETRIES - n))%nat with MAX_RETRIES in Hloop by lia.
  rewrite Nat.add_0_r in Hloop. by rewrite Hloop.
Qed.

(** A response that decodes and yields a falsy text costs one network call
    and nothing else: the loop goes on with the next attempt. *)
Lemma after_attempts_falsy_text n w response' w' r data text :
  after_attempts MAX_RETRIES BASE_DELAY api_key user_query n w
    = Some (response', w') ->
  transport w' (net_calls w') req = PostReturns r ->
  ~ (400 <= status_code r < 600)%Z ->
  decoded r = Json data ->
  extract_text data = ret text ->
  truthy text = false ->
  after_attempts MAX_RETRIES BASE_DELAY api_key user_query (S n) w
    = Some (Some r, advance w' [EPost req]).
Proof.
  intros Hpre Hpost Hstatus Hjson Htext Hfalsy.
  unfold after_attempts in *.
  eapply fell_through_snoc; [exact Hpre |].
  rewrite (attempt_once_extracted MAX_RETRIES BASE_DELAY api_key user_query
             (n + 0) response' w' r data text Hpost
             (http_error_false r Hstatus) Hjson Htext).
  by rewrite Hfalsy.
Qed.

(** While attempts remain, what the call does from [w'] on starts with a
    network call. *)
Lemma generate_content_with_next_call n w response' w' :
  credential w api_key ->
  (n < MAX_RETRIES)%nat ->
  after_attempts MAX_RETRIES BASE_DELAY api_key user_query n w
    = Some (response', w') ->
  exists rest,
    snd (generate_content_with MAX_RETRIES BASE_DELAY user_query w)
    = advance w' (EPost req :: rest).
Proof.
  intros Hcred Hn Hpre.
  rewrite (generate_content_with_resume n w response' w' Hcred ltac:(lia) Hpre).
  destruct (for_range_same_responses MAX_RETRIES BASE_DELAY api_key user_query
              (MAX_RETRIES - n) n response' w' w'
              (same_responses_refl w' _)) as (c & evs & -> & _ & Hfirst).
  destruct (Hfirst ltac:(lia)) as (evs' & ->).
  destruct c; advance_norm; simpl; eauto.
Qed.

End Resume.

(** C9, as the code has it.  When an attempt gets a response that passes
    [raise_for_status] but the extracted text is the empty string, the
    attempt is not a success and nothing is printed or slept; the loop goes on:
    while attempts remain (fewer than five made) the call at once makes a
    further network call, and only when the empty text came on the fifth
    attempt does the call end there, printing the final failure line and
    returning [None]. *)
Theorem C9_empty_text_next_attempt
    (user_query api_key : string) (w : World) (n : nat)
    (response' : option Response) (w' : World) (r : Response) (data : PyVal) :
  credential w api_key ->
  (n < 5)%nat ->
  after_attempts 5 1 api_key user_query n w = Some (response', w') ->
  transport w' (net_calls w') (request api_key user_query) = PostReturns r ->
  ~ (400 <= status_code r < 600)%Z ->
  decoded r = Json data ->
  extract_text data = ret (PStr "") ->
  after_attempts 5 1 api_key user_query (S n) w
    = Some (Some r, advance w' [EPost (request api_key user_query)])
  /\ ((S n < 5)%nat ->
      exists rest,
        events_since w' (snd (generate_content user_query w))
        = EPost (request api_key user_query)
            :: EPost (request api_key user_query) :: rest)
  /\ (S n = 5%nat ->
      generate_content user_query w =
        (ret PNone,
         advance w' [EPost (request api_key user_query); EPrint MsgGaveUp])).
Proof.
  intros Hcred Hn Hpre Hpost Hstatus Hjson Htext.
  pose proof (after_attempts_falsy_text 5 1 api_key user_query n w response' w'
                r data (PStr "") Hpre Hpost Hstatus Hjson Htext eq_refl) as Hnext.
  split; [exact Hnext |]. split.
  - intros Hmore.
    destruct (generate_content_with_next_call 5 1 api_key user_query (S n) w _ _
                Hcred Hmore Hnext) as (rest & Hrest).
    exists rest. unfold generate_content. rewrite Hrest.
    advance_norm. apply events_since_advance.
  - intros Hlast. unfold generate_content. rewrite Hlast in Hnext.
    rewrite (generate_content_with_exhausted 5 1 api_key user_query w _ _
               Hcred Hnext).
    by advance_norm.
Qed.

Lemma world_empty_text_credential : credential world_empty_text "k".
Proof. split; [reflexivity | discriminate]. Qed.

Lemma C9_witness :
  credential world_empty_text "k"
  /\ extract_text (answer (PStr "")) = ret (PStr "")
  /\ exists rest,
       events_since world_empty_text (snd (generate_content "hi" world_empty_text))
       = EPost (request "k" "hi") :: EPost (request "k" "hi") :: rest.
Proof.
  split; [exact world_empty_text_credential |].
  split; [reflexivity |].
  destruct (C9_empty_text_next_attempt "hi" "k" world_empty_text 0 None
              world_empty_text empty_text_response (answer (PStr ""))
              world_empty_text_credential ltac:(lia) eq_refl eq_refl
              ltac:(simpl; lia) eq_refl eq_refl) as (_ & Hnext & _).
  apply Hnext. lia.
Defined.

(** C9 as stated fails: the first attempt succeeds at the HTTP level and
    yields the empty text, yet four more network calls follow. *)
Lemma C9_counterexample :
  transport world_empty_text 0 (request "k" "hi") = PostReturns empty_text_response
  /\ extract_text (answer (PStr "")) = ret (PStr "")
  /\ posts (events_since world_empty_text
              (snd (generate_content "hi" world_empty_text))) = 5%nat
  /\ posts (events_since world_empty_text
              (snd (generate_content "hi" world_empty_text))) <> 1%nat.
Proof.
  split; [reflexivity |]. split; [reflexivity |].
  split; [by vm_compute | vm_compute; discriminate].
Qed.

(** ** Success *)



Section Success.

Variable MAX_RETRIES : nat.
Variable BASE_DELAY : Z.
Variables api_key user_query : string.

Let req := request api_key user_query.




(** Conversely a truthy text is returned by the attempt that extracts it. *)
Lemma generate_content_with_returns n w response' w' r data v :
  credential w api_key ->
  (n < MAX_RETRIES)%nat ->
  after_attempts MAX_RETRIES BASE_DELAY api_key user_query n w
    = Some (response', w') ->
  transport w' (net_calls w') req = PostReturns r ->
  http_error r = false ->
  decoded r = Json data ->
  extract_text data = ret v ->
  truthy v = true ->
  generate_content_with MAX_RETRIES BASE_DELAY user_query w
    = (ret v, advance w' [EPost req]).
Proof.
  intros Hcred Hn Hpre Hpost Herr Hjson Htext Htruthy.
  pose proof (attempt_once_extracted MAX_RETRIES BASE_DELAY api_key user_query
                n response' w' r data v Hpost Herr Hjson Htext) as Hit.
  rewrite Htruthy in Hit.
  by rewrite (generate_content_with_stops _ _ _ _ _ _ _ _ _ _ _
                Hcred Hn Hpre Hit).
Qed.

End Success.






(** ** Malformed responses *)

(** An [AttributeError] or [TypeError] raised while digging into the decoded
    body is caught by no clause and leaves the function. *)
Lemma generate_content_with_uncaught
    (MAX_RETRIES : nat) (BASE_DELAY : Z) (user_query api_key : string)
    (w : World) (n : nat) (response' : option Response) (w' : World)
    (r : Response) (e : Exn) :
  credential w api_key ->
  (n < MAX_RETRIES)%nat ->
  after_attempts MAX_RETRIES BASE_DELAY api_key user_query n w
    = Some (response', w') ->
  transport w' (net_calls w') (request api_key user_query) = PostReturns r ->
  try_response r = raise e ->
  e = AttributeError \/ e = TypeError ->
  generate_content_with MAX_RETRIES BASE_DELAY user_query w
    = (raise e, advance w' [EPost (request api_key user_query)]).
Proof.
  intros Hcred Hn Hpre Hpost Htry He.
  rewrite (generate_content_with_stops MAX_RETRIES BASE_DELAY api_key user_query
             n w response' w' (Raise e) (Some r) _ Hcred Hn Hpre
             (attempt_once_uncaught MAX_RETRIES BASE_DELAY api_key user_query
                n response' w' r e Hpost Htry He)); done.
Qed.




(** * Further properties of the code *)

(** ** What the extraction can raise *)

Lemma py_get_raises v key default e :
  py_get v key default = raise e -> e = AttributeError.
Proof. destruct v; simpl; unfold raise, ret; congruence. Qed.

Lemma py_item0_raises v e :
  py_item0 v = raise e -> e = IndexError \/ e = KeyError \/ e = TypeError.
Proof.
  destruct v as [| | | | [|c s] | [|x l] |]; simpl; unfold raise, ret;
    intros [= <-]; auto.
Qed.

Lemma bind_raises {A B} (m : Exc A) (k : A -> Exc B) e :
  bind m k = raise e -> m = raise e \/ exists a, m = ret a /\ k a = raise e.
Proof.
  destruct m as [e' | a]; unfold bind, raise, ret.
  - intros [= ->]. by left.
  - intros H. right. by exists a.
Qed.

Lemma extract_text_raises data e :
  extract_text data = raise e ->
  e = IndexError \/ e = KeyError \/ e = AttributeError \/ e = TypeError.
Proof.
  unfold extract_text. intros H.
  repeat (apply bind_raises in H as [H | (? & _ & H)];
          [first [apply py_get_raises in H | apply py_item0_raises in H]; tauto |]).
  apply py_get_raises in H. tauto.
Qed.

(** What the [try] block raises after the call has returned: the HTTP
    error of [raise_for_status], or what [response.json()] raises, or what
    the extraction raises. *)
Lemma try_response_raise_cases r e :
  try_response r = raise e ->
  (http_error r = true /\ e = HTTPError (status_code r))
  \/ (http_error r = false /\ response_json r = raise e)
  \/ (http_error r = false
      /\ exists data, decoded r = Json data /\ extract_text data = raise e).
Proof.
  unfold try_response.
  destruct (http_error r) eqn:Herr.
  - rewrite (raise_for_status_error r Herr). unfold raise. simpl.
    intros [= <-]. by left.
  - rewrite (raise_for_status_ok r Herr). simpl.
    destruct (response_json r) as [e' | data] eqn:Hjson; simpl.
    + unfold raise. intros [= <-]. right. by left.
    + destruct (extract_text data) as [e' | text] eqn:Htext; simpl; [| done].
      unfold raise. intros [= <-]. right. right. split; [done |].
      exists data. split; [| done].
      unfold response_json in Hjson.
      by destruct (decoded r) as [d | [] | e0]; try discriminate;
        injection Hjson as ->.
Qed.

(** How the [try] block ends when nothing is raised. *)
Lemma try_response_ends r c :
  try_response r = ret c ->
  c = Next \/ exists v, c = Return v /\ truthy v = true.
Proof.
  unfold try_response, response_json.
  destruct (http_error r) eqn:Herr.
  - by rewrite (raise_for_status_error r Herr).
  - rewrite (raise_for_status_ok r Herr). simpl.
    destruct (decoded r) as [data | [] | e0]; simpl; try done.
    destruct (extract_text data) as [e' | text]; simpl; [done |].
    destruct (truthy text) eqn:Htruthy; unfold ret; intros [= <-]; eauto.
Qed.

(** ** What a call can do, whatever the service answers *)

Ltac not_among :=
  let H := fresh "H" in
  intros H; repeat (apply elem_of_cons in H as [H | H]; [discriminate |]);
  by apply elem_of_nil in H.

Lemma requests_sent_app a b :
  requests_sent (a ++ b) = requests_sent a ++ requests_sent b.
Proof.
  induction a as [|[] a IH]; simpl; [done | | done | done].
  by rewrite IH.
Qed.

Lemma posts_cons_post req evs : posts (EPost req :: evs) = S (posts evs).
Proof. done. Qed.

Lemma backoff_tail_sublist (BASE_DELAY : Z) (n attempt : nat) :
  map (backoff_delay BASE_DELAY) (seq (S attempt) (n - S attempt))
  `sublist_of` map (backoff_delay BASE_DELAY) (seq attempt (n - attempt)).
Proof.
  destruct (decide (attempt < n)%nat) as [Hlt | Hge].
  - replace (n - attempt)%nat with (S (n - S attempt)) by lia.
    simpl. by apply sublist_cons.
  - replace (n - S attempt)%nat with 0%nat by lia.
    replace (n - attempt)%nat with 0%nat by lia. done.
Qed.

Section Invariants.

Variable MAX_RETRIES : nat.
Variable BASE_DELAY : Z.
Variables api_key user_query : string.

Let req := request api_key user_query.

Ltac iteration_done :=
  advance_norm; eexists _, _, _; split; [reflexivity |];
  simpl; repeat split; auto; try not_among.

(** One iteration: a single network call, for the request of the call; at
    most one sleep, of the delay of this attempt and only before the last
    attempt; never the final failure line; it returns truthy values only and
    lets through only exceptions that no clause lists. *)
Lemma attempt_once_events attempt response w :
  exists c response' evs,
    attempt_once MAX_RETRIES BASE_DELAY api_key user_query attempt response w
      = (c, response', advance w (EPost req :: evs))
    /\ posts evs = 0%nat
    /\ requests_sent evs = []
    /\ (MsgGaveUp ∉ printed evs)
    /\ (sleeps evs = []
        \/ (attempt < MAX_RETRIES - 1)%nat
           /\ sleeps evs = [backoff_delay BASE_DELAY attempt])
    /\ ends_well c.
Proof.
  unfold attempt_once. rewrite requests_post_advance. fold req.
  destruct (transport w (net_calls w) req) as [k | r].
  - unfold except. simpl. iteration_done.
  - destruct (try_response r) as [e | c] eqn:Htry.
    + unfold except.
      destruct (is_HTTPError e) eqn:Hhttp.
      { destruct (bool_decide (status_code r ∈ [429; 500; 503]%Z)
                  && (Z.of_nat attempt <? Z.of_nat MAX_RETRIES - 1)%Z) eqn:Hcond;
          [| iteration_done].
        apply andb_true_iff in Hcond as [_ Hlt]. apply Z.ltb_lt in Hlt.
        advance_norm. eexists _, _, _. split; [reflexivity |].
        simpl. repeat split; auto; try not_among.
        right. split; [lia | done]. }
      destruct (is_RequestException e) eqn:Hreq; [iteration_done |].
      destruct (is_parse_error e) eqn:Hparse.
      { destruct (negb (String.eqb (text r) "")); iteration_done. }
      iteration_done.
    + apply try_response_ends in Htry as [-> | (v & -> & Hv)]; iteration_done.
Qed.

(** The loop, from any attempt on. *)
Lemma for_range_events remaining :
  forall attempt response w,
    exists c evs,
      for_range MAX_RETRIES BASE_DELAY api_key user_query
        remaining attempt response w = (c, advance w evs)
      /\ requests_sent evs = replicate (posts evs) req
      /\ (posts evs <= remaining)%nat
      /\ (sleeps evs `sublist_of`
            map (backoff_delay BASE_DELAY)
              (seq attempt (MAX_RETRIES - 1 - attempt)))
      /\ (MsgGaveUp ∉ printed evs)
      /\ ends_well c.
Proof.
  induction remaining as [|m IH]; intros attempt response w.
  - exists Next, []. rewrite advance_nil. simpl.
    repeat split; auto using sublist_nil_l. apply not_elem_of_nil.
  - destruct (attempt_once_events attempt response w)
      as (c & response' & evs0 & Hit & Hposts0 & Hreq0 & Hgave0 & Hsleep0 & Hc).
    assert (sleeps (EPost req :: evs0) `sublist_of`
              map (backoff_delay BASE_DELAY)
                (seq attempt (MAX_RETRIES - 1 - attempt))) as Hsub0.
    { simpl. destruct Hsleep0 as [-> | [Hlt ->]]; [apply sublist_nil_l |].
      replace (MAX_RETRIES - 1 - attempt)%nat
        with (S (MAX_RETRIES - 1 - S attempt)) by lia.
      simpl. apply sublist_skip, sublist_nil_l. }
    simpl. rewrite Hit.
    destruct c.
    all: try (eexists _, (EPost req :: evs0); split; [reflexivity |];
              rewrite posts_cons_post, Hposts0; simpl; rewrite Hreq0;
              split; [done |]; split; [lia |]; split; [done |];
              split; [done | exact Hc]).
    destruct (IH (S attempt) response' (advance w (EPost req :: evs0)))
      as (c & evs & -> & Hreq & Hposts & Hsleeps & Hgave & Hc').
    exists c, ((EPost req :: evs0) ++ evs).
    rewrite advance_advance. split; [done |].
    rewrite requests_sent_app, posts_app, sleeps_app, printed_app,
      posts_cons_post, Hposts0, Hreq.
    simpl. rewrite Hreq0. repeat split; auto; [lia | |].
    + destruct Hsleep0 as [-> | [Hlt ->]]; simpl.
      * etrans; [exact Hsleeps |]. apply backoff_tail_sublist.
      * replace (MAX_RETRIES - 1 - attempt)%nat
          with (S (MAX_RETRIES - 1 - S attempt)) by lia.
        simpl. by apply sublist_skip.
    + rewrite elem_of_app. tauto.
Qed.

End Invariants.

(** The whole call. *)
Lemma generate_content_with_events
    (MAX_RETRIES : nat) (BASE_DELAY : Z) (user_query : string) (w : World) :
  exists result evs,
    generate_content_with MAX_RETRIES BASE_DELAY user_query w
      = (result, advance w evs)
    /\ requests_sent evs
       = replicate (posts evs)
           (request (default "" (os_getenv "GEMINI_API_KEY" w)) user_query)
    /\ (posts evs <= MAX_RETRIES)%nat
    /\ (sleeps evs `sublist_of`
          map (backoff_delay BASE_DELAY) (seq 0 (MAX_RETRIES - 1)))
    /\ match result with
       | inr v => v = PNone \/ truthy v = true
       | inl e => unlisted e
       end
    /\ (forall api_key, credential w api_key ->
          (result = ret PNone <-> last (printed evs) = Some MsgGaveUp)).
Proof.
  unfold generate_content_with.
  destruct (os_getenv "GEMINI_API_KEY" w) as [key |] eqn:Hkey;
    [destruct (String.eqb key "") eqn:Hempty |].
  - exists (ret PNone), [EPrint MsgKeyNotSet; EPrint MsgPleaseSetKey].
    advance_norm. simpl.
    split; [done |]. split; [done |]. split; [apply Nat.le_0_l |].
    split; [apply sublist_nil_l |]. split; [by left |].
    intros api_key [Hk Hne]. exfalso. rewrite Hkey in Hk.
    injection Hk as <-. by apply String.eqb_eq in Hempty.
  - destruct (for_range_events MAX_RETRIES BASE_DELAY key user_query
                MAX_RETRIES 0%nat None w)
      as (c & evs & -> & Hreq & Hposts & Hsleeps & Hgave & Hc).
    rewrite Nat.sub_0_r in Hsleeps. simpl default.
    assert (last (printed evs) <> Some MsgGaveUp) as Hlast
      by (intros H; by apply last_Some_elem_of in H).
    assert (exists evs',
      print MsgGaveUp (advance w evs) = advance w evs'
      /\ requests_sent evs' = replicate (posts evs') (request key user_query)
      /\ (posts evs' <= MAX_RETRIES)%nat
      /\ (sleeps evs' `sublist_of`
            map (backoff_delay BASE_DELAY) (seq 0 (MAX_RETRIES - 1)))
      /\ last (printed evs') = Some MsgGaveUp) as (evs' & Hfail).
    { exists (evs ++ [EPrint MsgGaveUp]). advance_norm.
      rewrite requests_sent_app, posts_app, sleeps_app, printed_app, Hreq.
      simpl. rewrite !app_nil_r, Nat.add_0_r, last_snoc. done. }
    destruct Hfail as (Hw & Hreq' & Hposts' & Hsleeps' & Hlast').
    destruct c; simpl in Hc.
    + exists (ret PNone), evs'. rewrite Hw.
      split; [done |]. split; [done |]. split; [done |]. split; [done |].
      split; [by left |]. done.
    + exists (ret PNone), evs'. rewrite Hw.
      split; [done |]. split; [done |]. split; [done |]. split; [done |].
      split; [by left |]. done.
    + exists (ret v), evs.
      split; [done |]. split; [done |]. split; [done |]. split; [done |].
      split; [by right |]. intros _ _. split; [| done].
      unfold ret. intros [= ->]. done.
    + exists (raise e), evs.
      split; [done |]. split; [done |]. split; [done |]. split; [done |].
      split; [done |]. intros _ _. split; done.
  - exists (ret PNone), [EPrint MsgKeyNotSet; EPrint MsgPleaseSetKey].
    advance_norm. simpl.
    split; [done |]. split; [done |]. split; [apply Nat.le_0_l |].
    split; [apply sublist_nil_l |]. split; [by left |].
    intros api_key [Hk Hne]. by rewrite Hkey in Hk.
Qed.

Lemma sublist_total (l1 l2 : list Z) :
  l1 `sublist_of` l2 ->
  Forall (fun d => 0 <= d)%Z l2 ->
  (foldr Z.add 0 l1 <= foldr Z.add 0 l2)%Z.
Proof.
  induction 1 as [| x l1 l2 _ IH | x l1 l2 _ IH]; intros Hpos; simpl.
  - lia.
  - apply Forall_cons in Hpos as [_ Hpos]. specialize (IH Hpos). lia.
  - apply Forall_cons in Hpos as [Hx Hpos]. specialize (IH Hpos). lia.
Qed.

(** X1.  Whatever the service answers, a call leaves the environment and the
    transport alone and only adds events to the trace; it makes at most
    [MAX_RETRIES] network calls, and every one of them sends the same
    request: the one built from the query and the key of the environment. *)
Theorem X1_at_most_max_retries_identical_requests
    (MAX_RETRIES : nat) (BASE_DELAY : Z) (user_query : string) (w : World) :
  snd (generate_content_with MAX_RETRIES BASE_DELAY user_query w)
  = advance w
      (events_since w
         (snd (generate_content_with MAX_RETRIES BASE_DELAY user_query w)))
  /\ exists k,
       (k <= MAX_RETRIES)%nat
       /\ requests_sent
            (events_since w
               (snd (generate_content_with MAX_RETRIES BASE_DELAY user_query w)))
          = replicate k
              (request (default "" (os_getenv "GEMINI_API_KEY" w)) user_query).
Proof.
  destruct (generate_content_with_events MAX_RETRIES BASE_DELAY user_query w)
    as (result & evs & -> & Hreq & Hposts & _).
  simpl. rewrite events_since_advance. split; [done |].
  by exists (posts evs).
Qed.

(** X2.  Whatever the service answers, the delays a call sleeps are taken in
    order from 1, 2, 4, 8 seconds, each at most once: a call never sleeps
    more than 15 seconds in all. *)
Theorem X2_sleeps_at_most_15_seconds (user_query : string) (w : World) :
  sleeps (events_since w (snd (generate_content user_query w)))
    `sublist_of` [1; 2; 4; 8]%Z
  /\ (total_sleep (events_since w (snd (generate_content user_query w))) <= 15)%Z.
Proof.
  unfold generate_content.
  destruct (generate_content_with_events 5 1 user_query w)
    as (result & evs & -> & _ & _ & Hsleeps & _).
  simpl snd. rewrite events_since_advance.
  change (map (backoff_delay 1) (seq 0 (5 - 1))) with [1; 2; 4; 8]%Z in Hsleeps.
  split; [exact Hsleeps |].
  unfold total_sleep.
  change 15%Z with (foldr Z.add 0 [1; 2; 4; 8])%Z.
  apply sublist_total; [exact Hsleeps |].
  repeat constructor; lia.
Qed.

(** X3.  A value the call returns is [None] or truthy: never an empty
    string, a zero, [False] or an empty list or object. *)
Theorem X3_returns_none_or_truthy
    (MAX_RETRIES : nat) (BASE_DELAY : Z) (user_query : string) (w : World)
    (v : PyVal) :
  fst (generate_content_with MAX_RETRIES BASE_DELAY user_query w) = ret v ->
  v = PNone \/ truthy v = true.
Proof.
  destruct (generate_content_with_events MAX_RETRIES BASE_DELAY user_query w)
    as (result & evs & -> & _ & _ & _ & Hresult & _).
  simpl. intros ->. exact Hresult.
Qed.

Lemma X3_witness :
  fst (generate_content_with 5 1 "hi" world_hello) = ret (PStr "HELLO")
  /\ (PStr "HELLO" = PNone \/ truthy (PStr "HELLO") = true).
Proof.
  assert (fst (generate_content_with 5 1 "hi" world_hello) = ret (PStr "HELLO"))
    as H by (by vm_compute).
  split; [exact H |].
  exact (X3_returns_none_or_truthy 5 1 "hi" world_hello (PStr "HELLO") H).
Defined.

Section Escape.

Variable MAX_RETRIES : nat.
Variable BASE_DELAY : Z.
Variables api_key user_query : string.

Let req := request api_key user_query.

(** An exception that no clause lists leaves the iteration as it is. *)
Lemma attempt_once_unlisted attempt response w r e :
  transport w (net_calls w) req = PostReturns r ->
  try_response r = raise e ->
  unlisted e ->
  attempt_once MAX_RETRIES BASE_DELAY api_key user_query attempt response w
  = (Raise e, Some r, advance w [EPost req]).
Proof.
  intros Hpost Htry (Hhttp & Hreq & Hparse).
  unfold attempt_once. rewrite requests_post_advance. fold req.
  rewrite Hpost, Htry. unfold raise, except.
  by rewrite Hhttp, Hreq, Hparse.
Qed.

End Escape.

(** X4.  An exception of a class that one of the three [except] clauses
    lists (HTTP errors, request exceptions, JSON decode errors, [IndexError],
    [KeyError]) never leaves the call.  An exception of any other class that
    [response.json()] or the extraction raises, in whatever attempt, leaves
    the call at once: no further attempt is made and the final failure line
    is not printed.  Of what the extraction raises, [AttributeError] and
    [TypeError] are of that kind. *)
Theorem X4_listed_exceptions_caught_others_escape
    (MAX_RETRIES : nat) (BASE_DELAY : Z) (user_query api_key : string)
    (w : World) (e : Exn) :
  credential w api_key ->
  (fst (generate_content_with MAX_RETRIES BASE_DELAY user_query w) = raise e ->
   unlisted e)
  /\ (forall n response' w' r,
        (n < MAX_RETRIES)%nat ->
        after_attempts MAX_RETRIES BASE_DELAY api_key user_query n w
          = Some (response', w') ->
        transport w' (net_calls w') (request api_key user_query)
          = PostReturns r ->
        ~ (400 <= status_code r < 600)%Z ->
        response_json r = raise e
        \/ (exists data, decoded r = Json data /\ extract_text data = raise e) ->
        unlisted e ->
        generate_content_with MAX_RETRIES BASE_DELAY user_query w
        = (raise e, advance w' [EPost (request api_key user_query)]))
  /\ (forall data,
        extract_text data = raise e ->
        (unlisted e <-> e = AttributeError \/ e = TypeError)).
Proof.
  intros Hcred. split; [| split].
  - destruct (generate_content_with_events MAX_RETRIES BASE_DELAY user_query w)
      as (result & evs & -> & _ & _ & _ & Hresult & _).
    simpl. intros ->. exact Hresult.
  - intros n response' w' r Hn Hpre Hpost Hstatus Hraise Hun.
    assert (try_response r = raise e) as Htry.
    { unfold try_response.
      rewrite (raise_for_status_ok r (http_error_false r Hstatus)). simpl.
      destruct Hraise as [-> | (data & Hjson & Htext)]; [done |].
      unfold response_json. rewrite Hjson. simpl. by rewrite Htext. }
    by rewrite (generate_content_with_stops MAX_RETRIES BASE_DELAY api_key
                  user_query n w response' w' (Raise e) (Some r) _ Hcred Hn Hpre
                  (attempt_once_unlisted MAX_RETRIES BASE_DELAY api_key
                     user_query n response' w' r e Hpost Htry Hun)).
  - intros data Htext. unfold unlisted. split.
    + intros (_ & _ & Hparse).
      destruct (extract_text_raises data e Htext) as [-> | [-> | [-> | ->]]];
        try discriminate; auto.
    + by intros [-> | ->].
Qed.

Lemma X4_witness :
  credential world_huge_integer "k"
  /\ generate_content_with 5 1 "hi" world_huge_integer
     = (raise ValueError,
        advance world_huge_integer [EPost (request "k" "hi")]).
Proof.
  assert (credential world_huge_integer "k") as Hcred
    by (split; [reflexivity | discriminate]).
  split; [exact Hcred |].
  destruct (X4_listed_exceptions_caught_others_escape 5 1 "hi" "k"
              world_huge_integer ValueError Hcred) as (_ & Hescape & _).
  apply (Hescape 0%nat None world_huge_integer
           {| status_code := 200; text := "1e..."; decoded := JsonRaises ValueError |});
    [lia | reflexivity | reflexivity | simpl; lia | by left | done].
Defined.

(** X5.  With a key in the environment, the call returns [None] exactly when
    the last line it prints is the final failure line: every failure, also a
    first-attempt 404 or a network error, ends with the line about multiple
    retries, and no successful or raising call prints it last. *)
Theorem X5_none_iff_gave_up_line
    (MAX_RETRIES : nat) (BASE_DELAY : Z) (user_query api_key : string)
    (w : World) :
  credential w api_key ->
  fst (generate_content_with MAX_RETRIES BASE_DELAY user_query w) = ret PNone
  <-> last (printed
              (events_since w
                 (snd (generate_content_with MAX_RETRIES BASE_DELAY
                         user_query w))))
      = Some MsgGaveUp.
Proof.
  intros Hcred.
  destruct (generate_content_with_events MAX_RETRIES BASE_DELAY user_query w)
    as (result & evs & -> & _ & _ & _ & _ & Hiff).
  simpl. rewrite events_since_advance. by apply (Hiff api_key).
Qed.

Lemma X5_witness :
  credential world_404 "k"
  /\ (fst (generate_content_with 5 1 "hi" world_404) = ret PNone
      <-> last (printed
                  (events_since world_404
                     (snd (generate_content_with 5 1 "hi" world_404))))
          = Some MsgGaveUp).
Proof.
  assert (credential world_404 "k") as Hcred
    by (split; [reflexivity | discriminate]).
  split; [exact Hcred |].
  exact (X5_none_iff_gave_up_line 5 1 "hi" "k" world_404 Hcred).
Defined.

(** ** Recovery and extraction *)

Section Recovery.

Variable MAX_RETRIES : nat.
Variable BASE_DELAY : Z.
Variables api_key user_query : string.

Let req := request api_key user_query.

(** [k] retryable answers, all before the last attempt: [k] calls, each
    followed by its delay, and the loop goes on. *)
Lemma fell_through_all_retryable k :
  forall attempt response w,
    (attempt + k <= MAX_RETRIES - 1)%nat ->
    all_retryable req w k ->
    exists response' evs,
      fell_through MAX_RETRIES BASE_DELAY api_key user_query
        k attempt response w = Some (response', advance w evs)
      /\ posts evs = k
      /\ sleeps evs = map (backoff_delay BASE_DELAY) (seq attempt k).
Proof.
  induction k as [|k IH]; intros attempt response w Hlen Hall.
  - exists response, []. by rewrite advance_nil.
  - destruct (Hall 0%nat ltac:(lia)) as (r & Hpost & Hstatus).
    rewrite Nat.add_0_r in Hpost.
    pose proof (attempt_once_backoff MAX_RETRIES BASE_DELAY api_key user_query
                  attempt response w r Hpost Hstatus ltac:(lia)) as Hit.
    fold req in Hit. fold (backoff_delay BASE_DELAY attempt) in Hit.
    set (evs0 := [EPost req;
                  EPrint (MsgRetrying (status_code r) (backoff_delay BASE_DELAY attempt));
                  ESleep (backoff_delay BASE_DELAY attempt)]) in Hit.
    pose proof (all_retryable_step api_key user_query w evs0 k Hall eq_refl)
      as Hall'.
    destruct (IH (S attempt) (Some r) (advance w evs0) ltac:(lia) Hall')
      as (response' & evs & Hpre & Hposts & Hsleeps).
    exists response', (evs0 ++ evs). cbn [fell_through].
    rewrite Hit, Hpre, advance_advance.
    split; [done |]. rewrite posts_app, sleeps_app, Hposts, Hsleeps. done.
Qed.

End Recovery.

(** X6.  Transient errors are ridden out: when the first [k] attempts
    ([k < MAX_RETRIES]) are answered with 429, 500 or 503 and the next
    response passes [raise_for_status] and yields a truthy text, the call
    returns that text after [k + 1] network calls, having slept
    [BASE_DELAY * 2^i] after the attempt of index [i] for [i < k]. *)
Theorem X6_recovers_after_transient_errors
    (MAX_RETRIES : nat) (BASE_DELAY : Z) (user_query api_key : string)
    (w : World) (k : nat) (r : Response) (data v : PyVal) :
  credential w api_key ->
  (k < MAX_RETRIES)%nat ->
  all_retryable (request api_key user_query) w k ->
  transport w (net_calls w + k) (request api_key user_query) = PostReturns r ->
  ~ (400 <= status_code r < 600)%Z ->
  decoded r = Json data ->
  extract_text data = ret v ->
  truthy v = true ->
  fst (generate_content_with MAX_RETRIES BASE_DELAY user_query w) = ret v
  /\ posts (events_since w
              (snd (generate_content_with MAX_RETRIES BASE_DELAY user_query w)))
     = S k
  /\ sleeps (events_since w
               (snd (generate_content_with MAX_RETRIES BASE_DELAY user_query w)))
     = map (fun i => (BASE_DELAY * 2 ^ Z.of_nat i)%Z) (seq 0 k).
Proof.
  intros Hcred Hk Hall Hpost Hstatus Hjson Htext Htruthy.
  destruct (fell_through_all_retryable MAX_RETRIES BASE_DELAY api_key user_query
              k 0%nat None w ltac:(lia) Hall)
    as (response' & evs & Hpre & Hposts & Hsleeps).
  assert (transport (advance w evs) (net_calls (advance w evs))
            (request api_key user_query) = PostReturns r) as Hpost'.
  { simpl. rewrite Hposts, Nat.add_comm. exact Hpost. }
  rewrite (generate_content_with_returns MAX_RETRIES BASE_DELAY api_key
             user_query k w response' (advance w evs) r data v Hcred Hk Hpre
             Hpost' (http_error_false r Hstatus) Hjson Htext Htruthy).
  rewrite advance_advance. simpl fst. simpl snd.
  rewrite events_since_advance, posts_app, sleeps_app, Hposts, Hsleeps.
  change (posts [EPost (request api_key user_query)]) with 1%nat.
  change (sleeps [EPost (request api_key user_query)]) with (@nil Z).
  rewrite app_nil_r, Nat.add_1_r. done.
Qed.

(** The service answers 503 twice and then with the text HELLO. *)
Lemma X6_witness :
  let w := fresh_world (Some "k")
             (fun n => match n with
                       | 0%nat | 1%nat => http 503 "" (Undecodable false)
                       | _ => PostReturns hello_response
                       end) in
  credential w "k"
  /\ fst (generate_content_with 5 1 "hi" w) = ret (PStr "HELLO")
  /\ sleeps (events_since w (snd (generate_content_with 5 1 "hi" w)))
     = [1; 2]%Z.
Proof.
  intros w.
  assert (credential w "k") as Hcred by (split; [reflexivity | discriminate]).
  assert (all_retryable (request "k" "hi") w 2) as Hall.
  { intros i Hi. exists {| status_code := 503; text := ""; decoded := Undecodable false |}.
    split; [| simpl; rewrite !elem_of_cons; tauto].
    destruct i as [|[|i]]; [reflexivity | reflexivity | lia]. }
  destruct (X6_recovers_after_transient_errors 5 1 "hi" "k" w 2 hello_response
              (answer (PStr "HELLO")) (PStr "HELLO") Hcred ltac:(lia) Hall
              eq_refl ltac:(simpl; lia) eq_refl ltac:(by vm_compute) eq_refl)
    as (Hres & _ & Hsleeps).
  split; [exact Hcred |]. split; [exact Hres | exact Hsleeps].
Defined.

(** X7.  Only the first candidate and the first part of its content are
    read: when the first response passes [raise_for_status] and decodes to an
    object whose first candidate has a content whose first part has a truthy
    text, the call returns that text after one network call, whatever other
    candidates, parts and keys the body holds. *)
Theorem X7_first_candidate_first_part
    (user_query api_key : string) (w : World) (r : Response)
    (d c k p : gmap string PyVal) (cs ps : list PyVal) (v : PyVal) :
  credential w api_key ->
  transport w (net_calls w) (request api_key user_query) = PostReturns r ->
  ~ (400 <= status_code r < 600)%Z ->
  decoded r = Json (PDict d) ->
  d !! "candidates" = Some (PList (PDict c :: cs)) ->
  c !! "content" = Some (PDict k) ->
  k !! "parts" = Some (PList (PDict p :: ps)) ->
  p !! "text" = Some v ->
  truthy v = true ->
  generate_content user_query w
  = (ret v, advance w [EPost (request api_key user_query)]).
Proof.
  intros Hcred Hpost Hstatus Hjson Hd Hc Hk Hp Htruthy.
  assert (extract_text (PDict d) = ret v) as Htext.
  { unfold extract_text. simpl. rewrite Hd. simpl. rewrite Hc. simpl.
    rewrite Hk. simpl. by rewrite Hp. }
  apply (generate_content_with_returns 5 1 api_key user_query 0 w None w r
           (PDict d) v Hcred ltac:(lia) eq_refl Hpost
           (http_error_false r Hstatus) Hjson Htext Htruthy).
Qed.

Lemma X7_witness :
  let w := fresh_world (Some "k")
             (fun _ => http 200 "two" (Json (PDict two_candidates))) in
  credential w "k"
  /\ generate_content "hi" w
     = (ret (PStr "FIRST"), advance w [EPost (request "k" "hi")]).
Proof.
  intros w.
  assert (credential w "k") as Hcred by (split; [reflexivity | discriminate]).
  split; [exact Hcred |].
  apply (X7_first_candidate_first_part "hi" "k" w
           {| status_code := 200; text := "two"; decoded := Json (PDict two_candidates) |}
           two_candidates
           {[ "content" :=
                PDict {[ "parts" := PList [PDict {[ "text" := PStr "FIRST" ]};
                                           PDict {[ "text" := PStr "SECOND" ]}] ]} ]}
           {[ "parts" := PList [PDict {[ "text" := PStr "FIRST" ]};
                                PDict {[ "text" := PStr "SECOND" ]}] ]}
           {[ "text" := PStr "FIRST" ]}
           [PDict {[ "content" :=
                PDict {[ "parts" := PList [PDict {[ "text" := PStr "OTHER" ]}] ]} ]}]
           [PDict {[ "text" := PStr "SECOND" ]}]
           (PStr "FIRST") Hcred eq_refl);
    [simpl; lia | reflexivity | by vm_compute | by vm_compute | by vm_compute
    | by vm_compute | reflexivity].
Defined.

(** X8.  A key missing on the way to the text, at any of the four levels, is
    absorbed by the lookup defaults: extraction yields [None] without
    raising, and an attempt that gets such a response prints nothing, does
    not sleep and lets the loop go on to the next attempt. *)
Theorem X8_missing_key_any_level_absorbed
    (user_query api_key : string) (w : World) (n : nat)
    (response' : option Response) (w' : World) (r : Response)
    (d : gmap string PyVal) :
  after_attempts 5 1 api_key user_query n w = Some (response', w') ->
  transport w' (net_calls w') (request api_key user_query) = PostReturns r ->
  ~ (400 <= status_code r < 600)%Z ->
  decoded r = Json (PDict d) ->
  lacks_key d ->
  extract_text (PDict d) = ret PNone
  /\ after_attempts 5 1 api_key user_query (S n) w
     = Some (Some r, advance w' [EPost (request api_key user_query)]).
Proof.
  intros Hpre Hpost Hstatus Hjson Hlacks.
  assert (extract_text (PDict d) = ret PNone) as Htext.
  { unfold extract_text. simpl.
    destruct Hlacks as [-> | (c & cs & -> & [Hc | (k & Hc & [Hk | (p & ps & Hk & Hp)])])];
      simpl; rewrite ?Hc; simpl; rewrite ?Hk; simpl; rewrite ?Hp; done. }
  split; [exact Htext |].
  by apply (after_attempts_falsy_text 5 1 api_key user_query n w response' w'
              r (PDict d) PNone).
Qed.

Lemma X8_witness :
  let w := fresh_world (Some "k")
             (fun _ => http 200 "no parts" (Json (PDict no_parts))) in
  lacks_key no_parts
  /\ extract_text (PDict no_parts) = ret PNone
  /\ after_attempts 5 1 "k" "hi" 1 w
     = Some (Some {| status_code := 200; text := "no parts";
                     decoded := Json (PDict no_parts) |},
             advance w [EPost (request "k" "hi")]).
Proof.
  intros w.
  assert (lacks_key no_parts) as Hlacks.
  { right. exists {[ "content" := PDict {[ "role" := PStr "model" ]} ]}, [].
    split; [by vm_compute |]. right. exists {[ "role" := PStr "model" ]}.
    split; [by vm_compute |]. left. by vm_compute. }
  split; [exact Hlacks |].
  apply (X8_missing_key_any_level_absorbed "hi" "k" w 0 None w
           {| status_code := 200; text := "no parts";
              decoded := Json (PDict no_parts) |}
           no_parts eq_refl eq_refl ltac:(simpl; lia) eq_refl Hlacks).
Defined.

(** ** The command-line loop *)

Lemma generate_content_no_credential (user_query : string) (w : World) :
  os_getenv "GEMINI_API_KEY" w = None \/ os_getenv "GEMINI_API_KEY" w = Some "" ->
  generate_content user_query w
  = (ret PNone, advance w [EPrint MsgKeyNotSet; EPrint MsgPleaseSetKey]).
Proof.
  intros Hkey. unfold generate_content, generate_content_with.
  destruct Hkey as [-> | ->]; simpl; by advance_norm.
Qed.

Lemma session_requests_app a b :
  session_requests (a ++ b) = session_requests a ++ session_requests b.
Proof.
  induction a as [|[| | | |[]] a IH]; simpl; try done.
  by rewrite IH.
Qed.

Lemma session_requests_calls evs :
  session_requests (map OutCall evs) = requests_sent evs.
Proof.
  induction evs as [|[] evs IH]; simpl; try done.
  by rewrite IH.
Qed.

Section Session.

Variable str_lower : string -> string.
Variable str_strip : string -> string.
Variable can_print : PyVal -> bool.

Let loop := main_loop str_lower str_strip can_print.
Let query := is_query str_lower str_strip.

(** What a session does to the world and shows of it, from any point on. *)
Lemma main_loop_events keys :
  forall w out,
    exists evs,
      world (loop keys w out) = advance w evs
      /\ session_requests (console (loop keys w out))
         = session_requests out ++ requests_sent evs
      /\ (posts evs <= 5 * length (List.filter query (typed_lines keys)))%nat
      /\ Forall (fun req =>
                   exists line,
                     line ∈ List.filter query (typed_lines keys)
                     /\ req = request (default "" (os_getenv "GEMINI_API_KEY" w))
                                line)
           (requests_sent evs).
Proof.
  unfold loop, query.
  induction keys as [|[line |] rest IH]; intros w out.
  - exists []. rewrite advance_nil. simpl.
    rewrite session_requests_app, !app_nil_r. simpl.
    split; [done |]. split; [done |].
    split; [unfold posts; simpl; lia | constructor].
  - cbn [main_loop typed_lines List.filter].
    destruct (bool_decide (str_lower line ∈ ["quit"; "exit"])) eqn:Hexit.
    { assert (is_query str_lower str_strip line = false) as ->
        by (unfold is_query; by rewrite Hexit).
      exists []. rewrite advance_nil. simpl.
      rewrite session_requests_app, !app_nil_r. simpl.
      split; [done |]. split; [done |].
      split; [unfold posts; simpl; lia | constructor]. }
    destruct (String.eqb (str_strip line) "") eqn:Hblank.
    { assert (is_query str_lower str_strip line = false) as ->
        by (unfold is_query; by rewrite Hexit, Hblank).
      simpl. destruct (IH w (out ++ [OutPrompt PROMPT]))
        as (evs & Hw & Hreqs & Hposts & Hall).
      exists evs. rewrite Hw, Hreqs, session_requests_app. simpl.
      rewrite app_nil_r.
      split; [done |]. split; [done |]. split; [lia | done]. }
    assert (is_query str_lower str_strip line = true) as ->
      by (unfold is_query; by rewrite Hexit, Hblank).
    cbn [length].
    destruct (generate_content_with_events 5 1 line w)
      as (result & evs1 & Hrun & Hreq1 & Hposts1 & _).
    unfold generate_content. rewrite Hrun, events_since_advance.
    assert (Forall (fun req =>
              exists line0,
                line0 ∈ line :: List.filter (is_query str_lower str_strip)
                                  (typed_lines rest)
                /\ req = request (default "" (os_getenv "GEMINI_API_KEY" w)) line0)
              (requests_sent evs1)) as Hall1.
    { rewrite Hreq1. apply Forall_forall. intros req Hin.
      apply elem_of_replicate_inv in Hin as ->.
      exists line. split; [apply elem_of_cons; by left | done]. }
    destruct result as [e | v].
    + exists evs1. cbn [world console].
      rewrite !session_requests_app, session_requests_calls. simpl.
      rewrite !app_nil_r. repeat split; auto; lia.
    + destruct (truthy v); [destruct (can_print v) |].
      1, 3: (match goal with
             | |- context [main_loop _ _ _ _ ?w1 ?o] =>
                 destruct (IH w1 o)
                   as (evs2 & Hw & Hreqs & Hposts & Hall)
             end;
             exists (evs1 ++ evs2);
             rewrite Hw, Hreqs, advance_advance, requests_sent_app, posts_app;
             split; [done |];
             split;
               [rewrite !session_requests_app, session_requests_calls; simpl;
                rewrite ?app_nil_r, ?app_assoc; done |];
             split; [lia |];
             apply Forall_app; split; [exact Hall1 |];
             eapply Forall_impl; [exact Hall |];
             intros req (line0 & Hin & ->); exists line0;
             split; [apply elem_of_cons; by right | done]).
      exists evs1. cbn [world console].
      rewrite !session_requests_app, session_requests_calls. simpl.
      rewrite !app_nil_r. repeat split; auto; lia.
  - exists []. rewrite advance_nil. simpl.
    rewrite session_requests_app, !app_nil_r. simpl.
    split; [done |]. split; [done |].
    split; [unfold posts; simpl; lia | constructor].
Qed.

End Session.

Lemma posts_requests_sent evs : posts evs = length (requests_sent evs).
Proof.
  induction evs as [|[] evs IH]; simpl; try done.
  by rewrite posts_cons_post, IH.
Qed.

(** X9.  In a whole session the network is used for queries only: the
    session sends at most five requests per line that is neither an exit
    command nor blank, every request carries one such line, as it was typed,
    and the key of the environment, and the terminal shows every call the
    world counts. *)
Theorem X9_session_sends_queries_only
    (str_lower str_strip : string -> string) (can_print : PyVal -> bool)
    (keys : list Key) (w : World) :
  let s := main str_lower str_strip can_print keys w in
  net_calls (world s)
  = (length (session_requests (console s)) + net_calls w)%nat
  /\ (length (session_requests (console s))
      <= 5 * length (List.filter (is_query str_lower str_strip)
                       (typed_lines keys)))%nat
  /\ Forall (fun req =>
               exists line,
                 line ∈ List.filter (is_query str_lower str_strip)
                          (typed_lines keys)
                 /\ req = request (default "" (os_getenv "GEMINI_API_KEY" w))
                            line)
       (session_requests (console s)).
Proof.
  unfold main.
  destruct (main_loop_events str_lower str_strip can_print keys w (map OutLine BANNER))
    as (evs & Hw & Hreqs & Hposts & Hall).
  cbv zeta. rewrite Hw, Hreqs. simpl session_requests. simpl app.
  rewrite <- posts_requests_sent. done.
Qed.

Section NoCredential.

Variable str_lower : string -> string.
Variable str_strip : string -> string.
Variable can_print : PyVal -> bool.

(** Without a key a session never reaches the network. *)
Lemma main_loop_no_credential keys :
  forall w out,
    os_getenv "GEMINI_API_KEY" w = None
    \/ os_getenv "GEMINI_API_KEY" w = Some "" ->
    net_calls (world (main_loop str_lower str_strip can_print keys w out)) = net_calls w
    /\ session_requests (console (main_loop str_lower str_strip can_print keys w out))
       = session_requests out.
Proof.
  induction keys as [|[line |] rest IH]; intros w out Hkey.
  - simpl. by rewrite session_requests_app, app_nil_r.
  - cbn [main_loop].
    destruct (bool_decide (str_lower line ∈ ["quit"; "exit"])).
    { simpl. by rewrite session_requests_app, app_nil_r. }
    destruct (String.eqb (str_strip line) "").
    { destruct (IH w (out ++ [OutPrompt PROMPT]) Hkey) as [-> ->].
      by rewrite session_requests_app, app_nil_r. }
    rewrite (generate_content_no_credential line w Hkey), events_since_advance.
    unfold ret. cbv beta iota. simpl truthy. cbv iota.
    match goal with
    | |- context [main_loop _ _ _ rest ?w1 ?o] =>
        destruct (IH w1 o Hkey) as [-> ->]
    end.
    split; [done |].
    by rewrite !session_requests_app, !app_nil_r.
  - simpl. by rewrite session_requests_app, app_nil_r.
Qed.

End NoCredential.

(** X10.  Without an API key in the environment (unset or empty) a whole
    session makes no network call, whatever is typed: the network-call
    counter ends where it started and the terminal shows no request. *)
Theorem X10_session_without_key_never_calls
    (str_lower str_strip : string -> string) (can_print : PyVal -> bool)
    (keys : list Key) (w : World) :
  os_getenv "GEMINI_API_KEY" w = None \/ os_getenv "GEMINI_API_KEY" w = Some "" ->
  net_calls (world (main str_lower str_strip can_print keys w)) = net_calls w
  /\ session_requests (console (main str_lower str_strip can_print keys w)) = [].
Proof.
  intros Hkey. unfold main.
  destruct (main_loop_no_credential str_lower str_strip can_print keys w
              (map OutLine BANNER) Hkey) as [-> ->].
  done.
Qed.

Lemma X10_witness :
  let w := fresh_world None (fun _ => PostReturns hello_response) in
  (os_getenv "GEMINI_API_KEY" w = None \/ os_getenv "GEMINI_API_KEY" w = Some "")
  /\ net_calls (world (main ascii_lower ascii_strip (fun _ => true)
                         [Typed "hello"; Typed ""; Typed "again"; CtrlC] w))
     = 0%nat.
Proof.
  intros w. split; [by left |].
  apply (X10_session_without_key_never_calls ascii_lower ascii_strip (fun _ => true)
           [Typed "hello"; Typed ""; Typed "again"; CtrlC] w).
  by left.
Defined.

(** X11.  What the loop does with the value of a call for a query.  [None]
    prints nothing and the session goes on.  Any other value is printed, for
    the test [if result:] hides none (what the call returns is truthy), and
    the session goes on; unless the terminal cannot encode the value: then
    [print] raises inside the [try], [except Exception] reports the error and
    the session ends, the value not printed and the keys after it unread. *)
Theorem X11_result_printed_if_encodable
    (str_lower str_strip : string -> string) (can_print : PyVal -> bool)
    (line : string) (rest : list Key) (w w' : World) (out : list Output)
    (v : PyVal) :
  is_query str_lower str_strip line = true ->
  generate_content line w = (ret v, w') ->
  (v = PNone ->
   main_loop str_lower str_strip can_print (Typed line :: rest) w out
   = main_loop str_lower str_strip can_print rest w'
       (out ++ [OutPrompt PROMPT; OutLine RESPONSE_HEADER]
            ++ map OutCall (events_since w w')))
  /\ (v <> PNone -> can_print v = true ->
      main_loop str_lower str_strip can_print (Typed line :: rest) w out
      = main_loop str_lower str_strip can_print rest w'
          (out ++ [OutPrompt PROMPT; OutLine RESPONSE_HEADER]
               ++ map OutCall (events_since w w') ++ [OutResult v]))
  /\ (v <> PNone -> can_print v = false ->
      main_loop str_lower str_strip can_print (Typed line :: rest) w out
      = {| world := w';
           console := out ++ [OutPrompt PROMPT; OutLine RESPONSE_HEADER]
                          ++ map OutCall (events_since w w')
                          ++ [OutUnexpected UnicodeEncodeError];
           unread := rest |}).
Proof.
  intros Hquery Hrun.
  apply andb_true_iff in Hquery as [Hexit Hblank].
  apply negb_true_iff in Hexit, Hblank.
  cbn [main_loop]. rewrite Hexit, Hblank, Hrun.
  destruct (generate_content_with_events 5 1 line w)
    as (result & evs & Hrun' & _ & _ & _ & Hresult & _).
  unfold generate_content in Hrun. rewrite Hrun in Hrun'.
  injection Hrun' as <- ->.
  unfold ret. cbv beta iota.
  split; [| split].
  - intros ->. simpl truthy. cbv iota. by rewrite <- !app_assoc.
  - intros Hv Hprint. destruct Hresult as [-> | ->]; [done |].
    rewrite Hprint. by rewrite <- !app_assoc.
  - intros Hv Hprint. destruct Hresult as [-> | ->]; [done |].
    rewrite Hprint. by rewrite <- !app_assoc.
Qed.

Lemma X11_witness :
  is_query ascii_lower ascii_strip "hello" = true
  /\ main_loop ascii_lower ascii_strip (fun _ => false)
       [Typed "hello"; Typed "more"] world_hello []
     = {| world := advance world_hello [EPost (request "k" "hello")];
          console := [] ++ [OutPrompt PROMPT; OutLine RESPONSE_HEADER]
                        ++ map OutCall
                             (events_since world_hello
                                (advance world_hello
                                   [EPost (request "k" "hello")]))
                        ++ [OutUnexpected UnicodeEncodeError];
          unread := [Typed "more"] |}.
Proof.
  split; [by vm_compute |].
  apply (X11_result_printed_if_encodable ascii_lower ascii_strip
           (fun _ => false) "hello" [Typed "more"] world_hello
           (advance world_hello [EPost (request "k" "hello")]) []
           (PStr "HELLO")).
  - by vm_compute.
  - by vm_compute.
  - discriminate.
  - reflexivity.
Defined.

(** X12.  A decoded body of the wrong shape ends the whole session: when the
    call for a line raises [AttributeError] or [TypeError] (nothing in
    [generate_content] catches them), [main] catches it under
    [except Exception], prints the unexpected-error line and leaves the loop,
    so the keys after that line are never read. *)
Theorem X12_wrong_shape_ends_session
    (str_lower str_strip : string -> string) (can_print : PyVal -> bool)
    (line api_key : string)
    (rest : list Key) (w : World) (out : list Output)
    (r : Response) (data : PyVal) (e : Exn) :
  is_query str_lower str_strip line = true ->
  credential w api_key ->
  transport w (net_calls w) (request api_key line) = PostReturns r ->
  ~ (400 <= status_code r < 600)%Z ->
  decoded r = Json data ->
  extract_text data = raise e ->
  e = AttributeError \/ e = TypeError ->
  main_loop str_lower str_strip can_print (Typed line :: rest) w out
  = {| world := advance w [EPost (request api_key line)];
       console := out ++ [OutPrompt PROMPT; OutLine RESPONSE_HEADER;
                          OutCall (EPost (request api_key line));
                          OutUnexpected (CallError e)];
       unread := rest |}.
Proof.
  intros Hquery Hcred Hpost Hstatus Hjson Htext He.
  apply andb_true_iff in Hquery as [Hexit Hblank].
  apply negb_true_iff in Hexit, Hblank.
  assert (try_response r = raise e) as Htry.
  { unfold try_response, response_json.
    rewrite (raise_for_status_ok r (http_error_false r Hstatus)), Hjson.
    simpl. by rewrite Htext. }
  cbn [main_loop]. rewrite Hexit, Hblank. unfold generate_content.
  rewrite (generate_content_with_uncaught 5 1 line api_key w 0 None w r e
             Hcred ltac:(lia) eq_refl Hpost Htry He).
  rewrite events_since_advance. unfold raise. simpl.
  by rewrite <- !app_assoc.
Qed.

Lemma X12_witness :
  is_query ascii_lower ascii_strip "hello" = true
  /\ credential world_json_array "k"
  /\ unread (main_loop ascii_lower ascii_strip (fun _ => true)
               [Typed "hello"; Typed "more"] world_json_array [])
     = [Typed "more"].
Proof.
  assert (credential world_json_array "k") as Hcred
    by (split; [reflexivity | discriminate]).
  split; [by vm_compute |]. split; [exact Hcred |].
  rewrite (X12_wrong_shape_ends_session ascii_lower ascii_strip (fun _ => true)
             "hello" "k"
             [Typed "more"] world_json_array []
             {| status_code := 200; text := "[]"; decoded := Json (PList []) |}
             (PList []) AttributeError
             ltac:(by vm_compute) Hcred eq_refl ltac:(simpl; lia) eq_refl
             eq_refl ltac:(by left)).
  reflexivity.
Defined.

(** ** Fatal answers in later attempts *)

(** X13.  An HTTP error status ends the call at whatever attempt it comes,
    unless it is 429, 500 or 503 and attempts remain: a status outside that
    list, or any error status on the fifth attempt, makes the call print the
    fatal HTTP error and the final failure line and return [None], with no
    sleep and no further network call after it. *)
Theorem X13_http_error_fatal_at_any_attempt
    (user_query api_key : string) (w : World) (n : nat)
    (response' : option Response) (w' : World) (r : Response) :
  credential w api_key ->
  (n < 5)%nat ->
  after_attempts 5 1 api_key user_query n w = Some (response', w') ->
  transport w' (net_calls w') (request api_key user_query) = PostReturns r ->
  (400 <= status_code r < 600)%Z ->
  status_code r ∉ [429; 500; 503]%Z \/ n = 4%nat ->
  generate_content user_query w =
    (ret PNone,
     advance w' [EPost (request api_key user_query);
                 EPrint (MsgFatalHTTP (HTTPError (status_code r)));
                 EPrint MsgGaveUp]).
Proof.
  intros Hcred Hn Hpre Hpost Hrange Hstop.
  assert (http_error r = true) as Herr.
  { unfold http_error. apply andb_true_iff.
    split; [apply Z.leb_le | apply Z.ltb_lt]; lia. }
  unfold generate_content.
  rewrite (generate_content_with_stops 5 1 api_key user_query n w response' w'
             Break (Some r)
             (advance w' [EPost (request api_key user_query);
                          EPrint (MsgFatalHTTP (HTTPError (status_code r)))])
             Hcred Hn Hpre); [by advance_norm | | done].
  apply attempt_once_fatal; [done | done |].
  destruct Hstop as [Hs | ->]; [by left | right; simpl; lia].
Qed.

Lemma X13_witness :
  credential world_503_on_fifth "k"
  /\ fst (generate_content "hi" world_503_on_fifth) = ret PNone
  /\ sleeps (trace (snd (generate_content "hi" world_503_on_fifth))) = [].
Proof.
  assert (credential world_503_on_fifth "k") as Hcred
    by (split; [reflexivity | discriminate]).
  split; [exact Hcred |].
  rewrite (X13_http_error_fatal_at_any_attempt "hi" "k" world_503_on_fifth 4
             (Some empty_text_response)
             (advance world_503_on_fifth
                [EPost (request "k" "hi"); EPost (request "k" "hi");
                 EPost (request "k" "hi"); EPost (request "k" "hi")])
             {| status_code := 503; text := ""; decoded := Undecodable false |}
             Hcred ltac:(lia) ltac:(by vm_compute) eq_refl
             ltac:(simpl; lia) ltac:(by right)).
  split; reflexivity.
Defined.

(** ** Bodies that are not JSON *)

(** X14.  With a requests library whose JSON decode error is a
    [RequestException] (2.27 and later), a body that is not JSON is caught by
    the second [except] clause, ahead of the one written for
    [json.JSONDecodeError]: the call reports a request error, does not print
    the raw body, makes no further attempt and returns [None]. *)
Theorem X14_decode_error_reported_as_request_error
    (user_query api_key : string) (w : World) (n : nat)
    (response' : option Response) (w' : World) (r : Response) :
  credential w api_key ->
  (n < 5)%nat ->
  after_attempts 5 1 api_key user_query n w = Some (response', w') ->
  transport w' (net_calls w') (request api_key user_query) = PostReturns r ->
  ~ (400 <= status_code r < 600)%Z ->
  decoded r = Undecodable false ->
  generate_content user_query w =
    (ret PNone,
     advance w' [EPost (request api_key user_query);
                 EPrint (MsgRequestError RequestsJSONDecodeError);
                 EPrint MsgGaveUp]).
Proof.
  intros Hcred Hn Hpre Hpost Hstatus Hjson.
  assert (attempt_once 5 1 api_key user_query n response' w'
          = (Break, Some r,
             advance w' [EPost (request api_key user_query);
                         EPrint (MsgRequestError RequestsJSONDecodeError)]))
    as Hit.
  { unfold attempt_once. rewrite requests_post_advance, Hpost.
    unfold try_response, response_json.
    rewrite (raise_for_status_ok r (http_error_false r Hstatus)), Hjson.
    unfold except. simpl. by advance_norm. }
  unfold generate_content.
  rewrite (generate_content_with_stops 5 1 api_key user_query n w response' w'
             Break (Some r) _ Hcred Hn Hpre Hit); [by advance_norm | done].
Qed.

Lemma X14_witness :
  credential world_html "k"
  /\ printed (trace (snd (generate_content "hi" world_html)))
     = [MsgRequestError RequestsJSONDecodeError; MsgGaveUp].
Proof.
  assert (credential world_html "k") as Hcred
    by (split; [reflexivity | discriminate]).
  split; [exact Hcred |].
  rewrite (X14_decode_error_reported_as_request_error "hi" "k" world_html 0
             None world_html
             {| status_code := 200; text := "<html>"; decoded := Undecodable false |}
             Hcred ltac:(lia) eq_refl eq_refl ltac:(simpl; lia) eq_refl).
  reflexivity.
Defined.
